(** * SUP front-end (app/static/app.js): a shallow embedding

    The script is browser glue: a session object mirrored to localStorage,
    a fetch wrapper, renderers that interpolate JSON into HTML, and event
    handlers.  The embedding keeps the script's shape:

    - JavaScript values are a small tagged union ([jsval]); property
      access, truthiness, [||] and string conversion follow ECMAScript;
    - a thrown exception is the [Throw] branch of [result]; side effects
      made before the throw stay in the world;
    - the page, the session object, localStorage, the toasts appended to
      the body, the requests handed to [fetch] and the console form one
      [World], threaded through a state-and-error monad;
    - the server and the clock are fields of the world that the script
      only reads.

    Each handler is run to completion: an [await] is sequenced, two
    handlers are never interleaved. *)

From Stdlib Require Import ZArith String Ascii List Bool Lia DecimalString.
From stdpp Require Import base option list gmap strings.

Open Scope string_scope.
Open Scope list_scope.
Set Warnings "-register-all".

(** ** Strings

    Strings are UTF-8 byte strings, as the source file is encoded. *)

(** The quotation mark of HTML attributes. *)
Definition dq : string := String (ascii_of_nat 34) EmptyString.

(** [Array.prototype.join('')] on an array of strings. *)
Definition join (parts : list string) : string := String.concat "" parts.

(** [String.prototype.includes]: [needle] occurs somewhere in [s]. *)
Fixpoint includes (s needle : string) : bool :=
  String.prefix needle s
  || match s with
     | EmptyString => false
     | String _ rest => includes rest needle
     end.

(** [String.prototype.slice(0, n)] for a string of one-byte characters
    (it is only applied to an ISO timestamp). *)
Definition slice0 (n : nat) (s : string) : string := String.substring 0 n s.

(** [String.prototype.length]: the number of UTF-16 code units of a UTF-8
    encoded string.  Continuation bytes count for nothing, the lead byte
    of a four-byte sequence counts for a surrogate pair. *)
Fixpoint utf16_length (s : string) : Z :=
  match s with
  | EmptyString => 0
  | String a rest =>
      let b := Z.of_nat (nat_of_ascii a) in
      (if (128 <=? b) && (b <? 192) then 0
       else if 240 <=? b then 2 else 1) + utf16_length rest
  end%Z.

Definition byte (n : nat) : ascii := ascii_of_nat n.

(** [String.prototype.toLowerCase] on the alphabets the status texts are
    written in: Basic Latin and the Cyrillic capitals U+0400 to U+042F.
    Every other character is passed through.  In UTF-8 the capitals are
    the two-byte sequences D0 80 to D0 AF:
    U+0400..U+040F (D0 80..8F) go to U+0450..U+045F (D1 90..9F),
    U+0410..U+041F (D0 90..9F) go to U+0430..U+043F (D0 B0..BF),
    U+0420..U+042F (D0 A0..AF) go to U+0440..U+044F (D1 80..8F). *)
Fixpoint toLowerCase (s : string) : string :=
  match s with
  | EmptyString => EmptyString
  | String a rest =>
      let n := nat_of_ascii a in
      if (65 <=? n) && (n <=? 90) then String (byte (n + 32)) (toLowerCase rest)
      else
        match rest with
        | String b rest' =>
            let m := nat_of_ascii b in
            if (n =? 208) && (128 <=? m) && (m <=? 143)
            then String (byte 209) (String (byte (m + 16)) (toLowerCase rest'))
            else if (n =? 208) && (144 <=? m) && (m <=? 159)
            then String (byte 208) (String (byte (m + 32)) (toLowerCase rest'))
            else if (n =? 208) && (160 <=? m) && (m <=? 175)
            then String (byte 209) (String (byte (m - 32)) (toLowerCase rest'))
            else String a (toLowerCase rest)
        | EmptyString => String a EmptyString
        end
  end%nat.

(** ** JavaScript values *)

(** What [JSON.parse] can produce, plus [undefined] and strings read from
    the page.  Numbers are the integers (no property below reads a fraction). *)
Inductive jsval : Type :=
| VUndef
| VNull
| VBool (b : bool)
| VNum (n : Z)
| VStr (s : string)
| VArr (items : list jsval)
| VObj (fields : list (string * jsval)).

(** An [Error] object, reduced to its [message]. *)
Inductive exn : Type := Error (message : string).

Definition message (e : exn) : string := let 'Error m := e in m.

Inductive result (A : Type) : Type :=
| Ok (a : A)
| Throw (e : exn).
Arguments Ok {A} a.
Arguments Throw {A} e.

(** ToBoolean. *)
Definition truthy (v : jsval) : bool :=
  match v with
  | VUndef | VNull => false
  | VBool b => b
  | VNum n => negb (n =? 0)%Z
  | VStr s => negb (String.eqb s EmptyString)
  | VArr _ | VObj _ => true
  end.

(** [a || b]. *)
Definition js_or (a b : jsval) : jsval := if truthy a then a else b.

(** ToString, as a template literal or [new Error(v)] applies it. *)
Fixpoint to_string (v : jsval) : string :=
  match v with
  | VUndef => "undefined"
  | VNull => "null"
  | VBool true => "true"
  | VBool false => "false"
  | VNum n => NilZero.string_of_int (Z.to_int n)
  | VStr s => s
  | VArr items =>
      String.concat ","
        (List.map (fun x => match x with
                            | VUndef | VNull => EmptyString
                            | _ => to_string x
                            end) items)
  | VObj _ => "[object Object]"
  end.

Fixpoint assoc (k : string) (fields : list (string * jsval)) : jsval :=
  match fields with
  | [] => VUndef
  | (k', v) :: rest => if String.eqb k k' then v else assoc k rest
  end.

(** Reading property [k] of [v].  [undefined] and [null] have no
    properties (a TypeError, with V8's wording); a missing property reads
    as [undefined]. *)
Definition get (v : jsval) (k : string) : result jsval :=
  match v with
  | VUndef =>
      Throw (Error ("Cannot read properties of undefined (reading '" +:+ k +:+ "')"))
  | VNull =>
      Throw (Error ("Cannot read properties of null (reading '" +:+ k +:+ "')"))
  | VObj fields => Ok (assoc k fields)
  | VArr items =>
      Ok (if String.eqb k "length" then VNum (Z.of_nat (length items)) else VUndef)
  | VStr s => Ok (if String.eqb k "length" then VNum (utf16_length s) else VUndef)
  | VBool _ | VNum _ => Ok VUndef
  end.

(** ** The page *)

(** A named control of a form: its current value, the value [reset()]
    restores, and the markup of its options. *)
Record control : Type := Control {
  cvalue : string;
  cdefault : string;
  coptions : string
}.

(** An element reachable by [getElementById]; the page is the finite map
    from ids to such elements.  [controls] lists the named controls of a
    form in document order. *)
Record element : Type := Element {
  classList : list string;
  innerHTML : string;
  textContent : string;
  value : string;
  controls : list (string * control)
}.

Definition contains (c : string) (e : element) : bool :=
  bool_decide (c ∈ classList e).

Definition set_classList (cl : list string) (e : element) : element :=
  Element cl (innerHTML e) (textContent e) (value e) (controls e).

(** [classList.add], [classList.remove] and [classList.toggle(c, force)]. *)
Definition classList_add (c : string) (e : element) : element :=
  if contains c e then e else set_classList (classList e ++ [c]) e.

Definition classList_remove (c : string) (e : element) : element :=
  set_classList (filter (fun x => x ≠ c) (classList e)) e.

Definition classList_toggle (c : string) (force : bool) (e : element) : element :=
  if force then classList_add c e else classList_remove c e.

Definition set_innerHTML (html : string) (e : element) : element :=
  Element (classList e) html (textContent e) (value e) (controls e).

Definition set_textContent (t : string) (e : element) : element :=
  Element (classList e) (innerHTML e) t (value e) (controls e).

Definition set_value (v : string) (e : element) : element :=
  Element (classList e) (innerHTML e) (textContent e) v (controls e).

Definition set_controls (cs : list (string * control)) (e : element) : element :=
  Element (classList e) (innerHTML e) (textContent e) (value e) cs.

(** An element is shown when it does not carry the class [hidden]. *)
Definition visible (e : element) : bool := negb (contains "hidden" e).

(** ** The network *)

Record request : Type := Request {
  method : string;
  path : string;
  headers : list (string * string);
  (** the object handed to [JSON.stringify], when there is a body *)
  body : option (list (string * string))
}.

(** What the script reads of a [Response]: [json] is the outcome of
    [response.json()], [text] that of [response.text()]; either can
    reject. *)
Record response : Type := Response {
  ok : bool;
  statusText : string;
  contentType : option string;
  text : result string;
  json : result jsval
}.

Inductive outcome : Type :=
| Rejected (e : exn)
| Responded (r : response).

(** ** The world *)

Record State : Type := MkState {
  token : jsval;
  role : jsval;
  username : jsval;
  personnel : jsval;
  dutyTypes : jsval;
  equipment : jsval
}.

Record World : Type := MkWorld {
  state : State;
  localStorage : gmap string string;
  document : gmap string element;
  (** text of every toast appended to the body, oldest first *)
  toasts : list string;
  (** every request handed to [fetch], oldest first *)
  requests : list request;
  (** every error passed to [console.error], oldest first *)
  console : list exn;
  (** the server: its answer to a request, given the earlier ones *)
  network : list request -> request -> outcome;
  (** [new Date().toISOString()] *)
  isoNow : string
}.

Definition set_state (s : State) (w : World) : World :=
  MkWorld s (localStorage w) (document w) (toasts w) (requests w) (console w)
          (network w) (isoNow w).

Definition set_localStorage (ls : gmap string string) (w : World) : World :=
  MkWorld (state w) ls (document w) (toasts w) (requests w) (console w)
          (network w) (isoNow w).

Definition set_document (d : gmap string element) (w : World) : World :=
  MkWorld (state w) (localStorage w) d (toasts w) (requests w) (console w)
          (network w) (isoNow w).

Definition set_toasts (t : list string) (w : World) : World :=
  MkWorld (state w) (localStorage w) (document w) t (requests w) (console w)
          (network w) (isoNow w).

Definition set_requests (r : list request) (w : World) : World :=
  MkWorld (state w) (localStorage w) (document w) (toasts w) r (console w)
          (network w) (isoNow w).

Definition set_console (c : list exn) (w : World) : World :=
  MkWorld (state w) (localStorage w) (document w) (toasts w) (requests w) c
          (network w) (isoNow w).

Definition set_token (v : jsval) (s : State) : State :=
  MkState v (role s) (username s) (personnel s) (dutyTypes s) (equipment s).

Definition set_role (v : jsval) (s : State) : State :=
  MkState (token s) v (username s) (personnel s) (dutyTypes s) (equipment s).

Definition set_username (v : jsval) (s : State) : State :=
  MkState (token s) (role s) v (personnel s) (dutyTypes s) (equipment s).

Definition set_personnel (v : jsval) (s : State) : State :=
  MkState (token s) (role s) (username s) v (dutyTypes s) (equipment s).

Definition set_dutyTypes (v : jsval) (s : State) : State :=
  MkState (token s) (role s) (username s) (personnel s) v (equipment s).

Definition set_equipment (v : jsval) (s : State) : State :=
  MkState (token s) (role s) (username s) (personnel s) (dutyTypes s) v.

(** ** The monad of the script: state and exceptions *)

Definition M (A : Type) : Type := World -> result A * World.

Definition ret {A} (a : A) : M A := fun w => (Ok a, w).

Definition throw {A} (e : exn) : M A := fun w => (Throw e, w).

Definition bind {A B} (c : M A) (k : A -> M B) : M B := fun w =>
  match c w with
  | (Ok a, w') => k a w'
  | (Throw e, w') => (Throw e, w')
  end.

(** [try { c } catch (error) { h error }]. *)
Definition try_catch {A} (c : M A) (h : exn -> M A) : M A := fun w =>
  match c w with
  | (Ok a, w') => (Ok a, w')
  | (Throw e, w') => h e w'
  end.

Definition lift {A} (r : result A) : M A := fun w => (r, w).

Definition modify (f : World -> World) : M unit := fun w => (Ok tt, f w).

(** Reading a part of the world. *)
Definition gets {A} (f : World -> A) : M A := fun w => (Ok (f w), w).

(** A promise run until it settles, its outcome kept for a later
    [await]. *)
Definition settle {A} (c : M A) : M (result A) := fun w =>
  let '(r, w') := c w in (Ok r, w').

Declare Scope js_scope.
Delimit Scope js_scope with js.
Notation "x <- c ;; k" := (bind c (fun x => k))
  (at level 100, c at next level, right associativity) : js_scope.
Notation "c ;;; k" := (bind c (fun _ => k))
  (at level 100, right associativity) : js_scope.
Open Scope js_scope.

(** A method call or property read on the element with the given id;
    [getElementById] gave [null] when there is none. *)
Definition on_element (id prop : string) (f : element -> element) : M unit := fun w =>
  match document w !! id with
  | Some e => (Ok tt, set_document (<[id := f e]> (document w)) w)
  | None =>
      (Throw (Error ("Cannot read properties of null (reading '" +:+ prop +:+ "')")), w)
  end.

(** An assignment to a property of the element with the given id. *)
Definition assign_element (id prop : string) (f : element -> element) : M unit := fun w =>
  match document w !! id with
  | Some e => (Ok tt, set_document (<[id := f e]> (document w)) w)
  | None =>
      (Throw (Error ("Cannot set properties of null (setting '" +:+ prop +:+ "')")), w)
  end.

(** [document.getElementById(id).value]. *)
Definition read_value (id : string) : M string := fun w =>
  match document w !! id with
  | Some e => (Ok (value e), w)
  | None => (Throw (Error "Cannot read properties of null (reading 'value')"), w)
  end.

(** ** Pure helpers over [result] *)

Definition rbind {A B} (r : result A) (k : A -> result B) : result B :=
  match r with
  | Ok a => k a
  | Throw e => Throw e
  end.

Notation "x <-? c ;; k" := (rbind c (fun x => k))
  (at level 100, c at next level, right associativity) : js_scope.

(** The elements of the array a method such as [map] is called on.  The
    call is a TypeError unless the receiver is an array: JSON values carry
    no functions. *)
Definition array_items (recv meth : string) (v : jsval) : result (list jsval) :=
  match v with
  | VArr items => Ok items
  | VUndef | VNull => rbind (get v meth) (fun _ => Ok [])
  | _ => Throw (Error (recv +:+ "." +:+ meth +:+ " is not a function"))
  end.

(** The callback of [map] applied from left to right; the first exception
    ends the loop. *)
Fixpoint map_items {A} (f : jsval -> result A) (items : list jsval) : result (list A) :=
  match items with
  | [] => Ok []
  | x :: rest =>
      y <-? f x ;;
      ys <-? map_items f rest ;;
      Ok (y :: ys)
  end.

Fixpoint filter_items (f : jsval -> result bool) (items : list jsval)
  : result (list jsval) :=
  match items with
  | [] => Ok []
  | x :: rest =>
      keep <-? f x ;;
      ys <-? filter_items f rest ;;
      Ok (if keep then x :: ys else ys)
  end.

(** [recv.map(f).join('')]. *)
Definition map_join (recv : string) (v : jsval) (f : jsval -> result string)
  : result string :=
  items <-? array_items recv "map" v ;;
  rows <-? map_items f items ;;
  Ok (join rows).

(** [v === 'literal']. *)
Definition strict_eq_str (v : jsval) (s : string) : bool :=
  match v with
  | VStr s' => String.eqb s' s
  | _ => false
  end.

(** ** API client *)

(** [showToast]: a [div.toast] with the message as text is appended to the
    body.  The timers that fade it in and remove it are not modelled. *)
Definition showToast (message : string) : M unit :=
  modify (fun w => set_toasts (toasts w ++ [message]) w).

Record options : Type := Options {
  opt_method : option string;
  opt_body : option (list (string * string))
}.

Definition no_options : options := Options None None.

(** The header object [apiFetch] builds; no caller passes headers. *)
Definition request_headers (tok : jsval) : list (string * string) :=
  ("Content-Type", "application/json")
  :: (if truthy tok then [("Authorization", "Bearer " +:+ to_string tok)] else []).

Definition build_request (tok : jsval) (p : string) (o : options) : request :=
  Request (default "GET" (opt_method o)) p (request_headers tok) (opt_body o).

(** [payload.detail || payload.message || response.statusText]. *)
Definition failure_text (payload : jsval) (r : response) : result jsval :=
  d <-? get payload "detail" ;;
  if truthy d then Ok d
  else
    m <-? get payload "message" ;;
    Ok (js_or m (VStr (statusText r))).

(** The body of the [try] block once [fetch] has settled. *)
Definition read_response (o : outcome) : result jsval :=
  match o with
  | Rejected e => Throw e
  | Responded r =>
      let ctype := default EmptyString (contentType r) in
      let isJson := includes ctype "application/json" in
      payload <-? (if isJson then json r else t <-? text r ;; Ok (VStr t)) ;;
      if negb (ok r)
      then
        msg <-? failure_text payload r ;;
        Throw (Error (to_string msg))
      else Ok payload
  end.

(** [error.message || 'Помилка мережі']. *)
Definition toast_text (e : exn) : string :=
  if String.eqb (message e) EmptyString then "Помилка мережі" else message e.

(** [fetch]: the request is recorded and the server answers. *)
Definition fetch (req : request) : M outcome := fun w =>
  (Ok (network w (requests w) req), set_requests (requests w ++ [req]) w).

Definition apiFetch (p : string) (o : options) : M jsval :=
  tok <- gets (fun w => token (state w)) ;;
  try_catch
    (answer <- fetch (build_request tok p o) ;;
     lift (read_response answer))
    (fun error => showToast (toast_text error) ;;; throw error).

(** ** Session view *)

Definition setAuthenticated : M unit :=
  s <- gets state ;;
  if truthy (token s) then
    on_element "auth-section" "classList" (classList_add "hidden") ;;;
    on_element "app" "classList" (classList_remove "hidden") ;;;
    assign_element "user-info" "textContent"
      (set_textContent (to_string (username s) +:+ " (" +:+ to_string (role s) +:+ ")"))
  else
    on_element "auth-section" "classList" (classList_remove "hidden") ;;;
    on_element "app" "classList" (classList_add "hidden") ;;;
    assign_element "user-info" "textContent" (set_textContent EmptyString).

(** ** View router *)

(** A view panel is an element of class [view]. *)
Definition is_panel (e : element) : bool := contains "view" e.

Definition hide_panel (e : element) : element :=
  if is_panel e then classList_add "hidden" e else e.

Definition showView (name : string) : M unit := fun w =>
  let hidden := hide_panel <$> document w in
  let id := "view-" +:+ name in
  match hidden !! id with
  | Some target =>
      (Ok tt, set_document (<[id := classList_remove "hidden" target]> hidden) w)
  | None => (Ok tt, set_document hidden w)
  end.

(** ** Choice lists *)

Fixpoint update_control (name : string) (f : control -> control)
  (cs : list (string * control)) : option (list (string * control)) :=
  match cs with
  | [] => None
  | (n, c) :: rest =>
      if String.eqb n name then Some ((n, f c) :: rest)
      else (fun rest' => (n, c) :: rest') <$> update_control name f rest
  end.

Definition set_coptions (html : string) (c : control) : control :=
  Control (cvalue c) (cdefault c) html.

(** [form.name.innerHTML = html]: the form holds no control of that name
    when the left-hand side is [undefined].  The browser's re-selection of
    the first option is not modelled. *)
Definition assign_options (form name html : string) : M unit := fun w =>
  match document w !! form with
  | None =>
      (Throw (Error ("Cannot read properties of null (reading '" +:+ name +:+ "')")), w)
  | Some e =>
      match update_control name (set_coptions html) (controls e) with
      | Some cs => (Ok tt, set_document (<[form := set_controls cs e]> (document w)) w)
      | None =>
          (Throw (Error "Cannot set properties of undefined (setting 'innerHTML')"), w)
      end
  end.

(** [if (element) { c }]. *)
Definition if_present (id : string) (c : M unit) : M unit := fun w =>
  match document w !! id with
  | Some _ => c w
  | None => (Ok tt, w)
  end.

Definition person_option (p : jsval) : result string :=
  id <-? get p "id" ;;
  full_name <-? get p "full_name" ;;
  role <-? get p "role" ;;
  Ok ("<option value=" +:+ dq +:+ to_string id +:+ dq +:+ ">" +:+ to_string full_name +:+ " (" +:+ to_string role +:+ ")</option>").

Definition duty_option (d : jsval) : result string :=
  id <-? get d "id" ;;
  code <-? get d "code" ;;
  name <-? get d "name" ;;
  Ok ("<option value=" +:+ dq +:+ to_string id +:+ dq +:+ ">" +:+ to_string code +:+ " — " +:+ to_string name +:+ "</option>").

Definition equipment_option (eq : jsval) : result string :=
  id <-? get eq "id" ;;
  name <-? get eq "name" ;;
  Ok ("<option value=" +:+ dq +:+ to_string id +:+ dq +:+ ">" +:+ to_string name +:+ "</option>").

Definition has_category (category : string) (eq : jsval) : result bool :=
  c <-? get eq "category" ;;
  Ok (strict_eq_str c category).

(** [state.equipment.filter(...).map(...).join('')]. *)
Definition equipment_options (category : string) (equipment : jsval) : result string :=
  items <-? array_items "state.equipment" "filter" equipment ;;
  kept <-? filter_items (has_category category) items ;;
  rows <-? map_items equipment_option kept ;;
  Ok (join rows).

Definition blank_option : string := "<option value=" +:+ dq +:+ dq +:+ ">--</option>".

Definition populateSelects : M unit :=
  s <- gets state ;;
  personOptions <- lift (map_join "state.personnel" (personnel s) person_option) ;;
  if_present "schedule-form"
    (assign_options "schedule-form" "person_id" (blank_option +:+ personOptions)) ;;;
  if_present "plan-form"
    (assign_options "plan-form" "pilot_id" (blank_option +:+ personOptions) ;;;
     assign_options "plan-form" "navigator_id" (blank_option +:+ personOptions)) ;;;
  if_present "vacation-form"
    (assign_options "vacation-form" "person_id" (blank_option +:+ personOptions)) ;;;
  dutyOptions <- lift (map_join "state.dutyTypes" (dutyTypes s) duty_option) ;;
  if_present "schedule-form"
    (assign_options "schedule-form" "duty_type_id" (blank_option +:+ dutyOptions)) ;;;
  uavOptions <- lift (equipment_options "uav" (equipment s)) ;;
  vehicleOptions <- lift (equipment_options "vehicle" (equipment s)) ;;
  batteryOptions <- lift (equipment_options "battery" (equipment s)) ;;
  if_present "plan-form"
    (assign_options "plan-form" "uav_id" (blank_option +:+ uavOptions) ;;;
     assign_options "plan-form" "vehicle_id" (blank_option +:+ vehicleOptions) ;;;
     assign_options "plan-form" "battery_id" (blank_option +:+ batteryOptions)).

(** ** Renderers *)

(** [container.innerHTML = html] behind [if (!container) return], where
    the markup is computed (and may throw) only once the container is
    known to exist. *)
Definition render_into (id : string) (html : result string) : M unit := fun w =>
  match document w !! id with
  | None => (Ok tt, w)
  | Some e =>
      match html with
      | Ok h => (Ok tt, set_document (<[id := set_innerHTML h e]> (document w)) w)
      | Throw err => (Throw err, w)
      end
  end.

Definition personnel_row (p : jsval) : result string :=
  full_name <-? get p "full_name" ;;
  role <-? get p "role" ;;
  callsign <-? get p "callsign" ;;
  unit <-? get p "unit" ;;
  Ok ("
        <tr>
          <td>" +:+ to_string full_name +:+ "</td>
          <td>" +:+ to_string role +:+ "</td>
          <td>" +:+ to_string (js_or callsign (VStr EmptyString)) +:+ "</td>
          <td>" +:+ to_string unit +:+ "</td>
        </tr>
      ").

Definition personnel_table (rows : string) : string :=
  "
    <table class=" +:+ dq +:+ "table" +:+ dq +:+ ">
      <thead>
        <tr><th>ПІБ</th><th>Роль</th><th>Позивний</th><th>Підрозділ</th></tr>
      </thead>
      <tbody>" +:+ rows +:+ "</tbody>
    </table>
  ".

Definition renderPersonnel (personnel : jsval) : M unit :=
  render_into "personnel-table"
    (rows <-? map_join "personnel" personnel personnel_row ;;
     Ok (personnel_table rows)).

Definition statusColor (status : jsval) : result string :=
  if negb (truthy status) then Ok "#95a5a6"
  else
    match status with
    | VStr s =>
        if includes (toLowerCase s) "в" then Ok "#2ecc71"
        else if includes (toLowerCase s) "р" then Ok "#e67e22"
        else Ok "#1f3c88"
    | _ => Throw (Error "status.toLowerCase is not a function")
    end.

Definition plan_card (item : jsval) : result string :=
  unit <-? get item "unit" ;;
  mission <-? get item "mission" ;;
  start_time <-? get item "start_time" ;;
  end_time <-? get item "end_time" ;;
  pilot_name <-? get item "pilot_name" ;;
  navigator_name <-? get item "navigator_name" ;;
  Ok ("
        <div class=" +:+ dq +:+ "card" +:+ dq +:+ ">
          <h3>" +:+ to_string unit +:+ "</h3>
          <p><strong>Завдання:</strong> " +:+ to_string mission +:+ "</p>
          <p><strong>Час:</strong> " +:+ to_string (js_or start_time (VStr "--")) +:+ " – " +:+ to_string (js_or end_time (VStr "--")) +:+ "</p>
          <p><strong>Екіпаж:</strong> " +:+ to_string (js_or pilot_name (VStr "—")) +:+ " / " +:+ to_string (js_or navigator_name (VStr "—")) +:+ "</p>
        </div>
      ").

Definition status_row (entry : jsval) : result string :=
  person <-? get entry "person" ;;
  full_name <-? get person "full_name" ;;
  unit <-? get person "unit" ;;
  status <-? get entry "status" ;;
  color <-? statusColor status ;;
  Ok ("
        <tr>
          <td>" +:+ to_string full_name +:+ "</td>
          <td>" +:+ to_string unit +:+ "</td>
          <td><span class=" +:+ dq +:+ "status-badge" +:+ dq +:+ " style=" +:+ dq +:+ "background:" +:+ color +:+ dq +:+ ">" +:+ to_string status +:+ "</span></td>
        </tr>
      ").

Definition no_missions : string := "<p>Немає завдань на сьогодні.</p>".

Definition dashboard_html (planCards date statusRows : string) : string :=
  "
    <div class=" +:+ dq +:+ "card-grid" +:+ dq +:+ ">" +:+ (if String.eqb planCards EmptyString then no_missions else planCards) +:+ "</div>
    <h3>Статуси персоналу (" +:+ date +:+ ")</h3>
    <table class=" +:+ dq +:+ "table" +:+ dq +:+ ">
      <thead><tr><th>ПІБ</th><th>Підрозділ</th><th>Статус</th></tr></thead>
      <tbody>" +:+ statusRows +:+ "</tbody>
    </table>
  ".

Definition renderDashboard (data : jsval) : M unit :=
  render_into "dashboard-content"
    (plan <-? get data "plan" ;;
     planCards <-? map_join "data.plan" plan plan_card ;;
     statuses <-? get data "statuses" ;;
     statusRows <-? map_join "data.statuses" statuses status_row ;;
     date <-? get data "date" ;;
     Ok (dashboard_html planCards (to_string date) statusRows)).

Definition loadDashboard : M unit :=
  data <- apiFetch "/api/dashboard" no_options ;;
  renderDashboard data.

(** The localized empty-state message of the list views. *)
Definition no_data : string := "<p>Даних немає.</p>".

(** [if (!entries.length) { message } else { table }]. *)
Definition rows_or_message (entries : jsval) (row : jsval -> result string)
  (table : string -> string) : result string :=
  len <-? get entries "length" ;;
  if negb (truthy len) then Ok no_data
  else
    rows <-? map_join "entries" entries row ;;
    Ok (table rows).

Definition schedule_row (item : jsval) : result string :=
  duty_date <-? get item "duty_date" ;;
  full_name <-? get item "full_name" ;;
  color <-? get item "color" ;;
  code <-? get item "code" ;;
  note <-? get item "note" ;;
  Ok ("
        <tr>
          <td>" +:+ to_string duty_date +:+ "</td>
          <td>" +:+ to_string full_name +:+ "</td>
          <td><span class=" +:+ dq +:+ "status-badge" +:+ dq +:+ " style=" +:+ dq +:+ "background:" +:+ to_string color +:+ dq +:+ ">" +:+ to_string code +:+ "</span></td>
          <td>" +:+ to_string (js_or note (VStr EmptyString)) +:+ "</td>
        </tr>
      ").

Definition schedule_table (rows : string) : string :=
  "
    <table class=" +:+ dq +:+ "table" +:+ dq +:+ ">
      <thead><tr><th>Дата</th><th>Співробітник</th><th>Черга</th><th>Нотатки</th></tr></thead>
      <tbody>" +:+ rows +:+ "</tbody>
    </table>
  ".

Definition renderSchedule (entries : jsval) : M unit :=
  render_into "schedule-table" (rows_or_message entries schedule_row schedule_table).

(** [input.value || new Date().toISOString().slice(0, n)], written back
    into the input when it was empty. *)
Definition value_or_today (id : string) (n : nat) : M string :=
  v <- read_value id ;;
  if String.eqb v EmptyString
  then
    today <- gets (fun w => slice0 n (isoNow w)) ;;
    assign_element id "value" (set_value today) ;;;
    ret today
  else ret v.

Definition loadSchedule : M unit :=
  month <- value_or_today "schedule-month" 7 ;;
  data <- apiFetch ("/api/schedule?month=" +:+ month) no_options ;;
  entries <- lift (get data "entries") ;;
  renderSchedule entries.

Definition plan_row (item : jsval) : result string :=
  unit <-? get item "unit" ;;
  mission <-? get item "mission" ;;
  start_time <-? get item "start_time" ;;
  end_time <-? get item "end_time" ;;
  pilot_name <-? get item "pilot_name" ;;
  navigator_name <-? get item "navigator_name" ;;
  uav_name <-? get item "uav_name" ;;
  Ok ("
        <tr>
          <td>" +:+ to_string unit +:+ "</td>
          <td>" +:+ to_string mission +:+ "</td>
          <td>" +:+ to_string (js_or start_time (VStr EmptyString)) +:+ " – " +:+ to_string (js_or end_time (VStr EmptyString)) +:+ "</td>
          <td>" +:+ to_string (js_or pilot_name (VStr "—")) +:+ "</td>
          <td>" +:+ to_string (js_or navigator_name (VStr "—")) +:+ "</td>
          <td>" +:+ to_string (js_or uav_name (VStr "—")) +:+ "</td>
        </tr>
      ").

Definition plan_table (rows : string) : string :=
  "
    <table class=" +:+ dq +:+ "table" +:+ dq +:+ ">
      <thead><tr><th>Підрозділ</th><th>Завдання</th><th>Час</th><th>Пілот</th><th>Штурман</th><th>БПЛА</th></tr></thead>
      <tbody>" +:+ rows +:+ "</tbody>
    </table>
  ".

Definition renderPlan (entries : jsval) : M unit :=
  render_into "plan-table" (rows_or_message entries plan_row plan_table).

Definition loadPlan : M unit :=
  date <- value_or_today "plan-date" 10 ;;
  data <- apiFetch ("/api/plan?date=" +:+ date) no_options ;;
  entries <- lift (get data "entries") ;;
  renderPlan entries.

Definition vacation_row (item : jsval) : result string :=
  full_name <-? get item "full_name" ;;
  start_date <-? get item "start_date" ;;
  end_date <-? get item "end_date" ;;
  status <-? get item "status" ;;
  Ok ("
        <tr>
          <td>" +:+ to_string full_name +:+ "</td>
          <td>" +:+ to_string start_date +:+ "</td>
          <td>" +:+ to_string end_date +:+ "</td>
          <td>" +:+ to_string status +:+ "</td>
        </tr>
      ").

Definition vacation_table (rows : string) : string :=
  "
    <table class=" +:+ dq +:+ "table" +:+ dq +:+ ">
      <thead><tr><th>Співробітник</th><th>Початок</th><th>Кінець</th><th>Статус</th></tr></thead>
      <tbody>" +:+ rows +:+ "</tbody>
    </table>
  ".

Definition renderVacations (entries : jsval) : M unit :=
  render_into "vacation-table" (rows_or_message entries vacation_row vacation_table).

Definition loadVacations : M unit :=
  data <- apiFetch "/api/vacations" no_options ;;
  renderVacations data.

Definition duty_summary_row (item : jsval) : result string :=
  code <-? get item "code" ;;
  name <-? get item "name" ;;
  total <-? get item "total" ;;
  Ok ("<tr><td>" +:+ to_string code +:+ "</td><td>" +:+ to_string name +:+ "</td><td>" +:+ to_string total +:+ "</td></tr>").

Definition workload_row (item : jsval) : result string :=
  full_name <-? get item "full_name" ;;
  total <-? get item "total" ;;
  Ok ("<tr><td>" +:+ to_string full_name +:+ "</td><td>" +:+ to_string total +:+ "</td></tr>").

Definition analytics_html (dutyRows workloadRows : string) : string :=
  "
      <div class=" +:+ dq +:+ "card-grid" +:+ dq +:+ ">
        <div>
          <h3>Чергування за типом</h3>
        <table class=" +:+ dq +:+ "table" +:+ dq +:+ "><thead><tr><th>Код</th><th>Назва</th><th>К-сть</th></tr></thead><tbody>" +:+ dutyRows +:+ "</tbody></table>
      </div>
      <div>
        <h3>Навантаженість</h3>
        <table class=" +:+ dq +:+ "table" +:+ dq +:+ "><thead><tr><th>Співробітник</th><th>К-сть чергувань</th></tr></thead><tbody>" +:+ workloadRows +:+ "</tbody></table>
      </div>
    </div>
  ".

Definition renderAnalytics (data : jsval) : M unit :=
  render_into "analytics-content"
    (duty_summary <-? get data "duty_summary" ;;
     dutyRows <-? map_join "data.duty_summary" duty_summary duty_summary_row ;;
     workload <-? get data "workload" ;;
     workloadRows <-? map_join "data.workload" workload workload_row ;;
     Ok (analytics_html dutyRows workloadRows)).

(** The query of the analytics request: both bounds or nothing. *)
Definition analytics_query (start end_ : string) : string :=
  if negb (String.eqb start EmptyString) && negb (String.eqb end_ EmptyString)
  then "?start=" +:+ start +:+ "&end=" +:+ end_
  else EmptyString.

Definition loadAnalytics : M unit :=
  start <- read_value "analytics-start" ;;
  end_ <- read_value "analytics-end" ;;
  data <- apiFetch ("/api/analytics/summary" +:+ analytics_query start end_) no_options ;;
  renderAnalytics data.

(** ** Forms by role *)

Definition privileged (r : jsval) : bool :=
  strict_eq_str r "admin" || strict_eq_str r "planner".

(** [if (form) form.classList.toggle('hidden', !privileged)]. *)
Definition toggle_form (id : string) (priv : bool) : M unit :=
  if_present id (on_element id "classList" (classList_toggle "hidden" (negb priv))).

Definition creation_forms : list string :=
  ["personnel-form"; "schedule-form"; "plan-form"; "vacation-form"].

Definition toggleFormsByRole : M unit :=
  r <- gets (fun w => role (state w)) ;;
  let priv := privileged r in
  toggle_form "personnel-form" priv ;;;
  toggle_form "schedule-form" priv ;;;
  toggle_form "plan-form" priv ;;;
  toggle_form "vacation-form" priv.

(** ** Base data *)

(** [state.field = v]. *)
Definition assign_state (f : State -> State) : M unit :=
  modify (fun w => set_state (f (state w)) w).

(** [Promise.all] over the three reads: every request is issued, in the
    order written, before any answer is looked at, and every failed read
    shows its toast.  The rejection kept is the first in that order. *)
Definition loadBaseData : M unit :=
  r1 <- settle (apiFetch "/api/personnel" no_options) ;;
  r2 <- settle (apiFetch "/api/duty-types" no_options) ;;
  r3 <- settle (apiFetch "/api/equipment" no_options) ;;
  personnel <- lift r1 ;;
  dutyTypes <- lift r2 ;;
  equipment <- lift r3 ;;
  assign_state (set_personnel personnel) ;;;
  assign_state (set_dutyTypes dutyTypes) ;;;
  assign_state (set_equipment equipment) ;;;
  populateSelects ;;;
  renderPersonnel personnel.

(** ** Event handlers *)

Definition setItem (k : string) (v : jsval) : M unit :=
  modify (fun w => set_localStorage (<[k := to_string v]> (localStorage w)) w).

Definition removeItem (k : string) : M unit :=
  modify (fun w => set_localStorage (delete k (localStorage w)) w).

Definition console_error (e : exn) : M unit :=
  modify (fun w => set_console (console w ++ [e]) w).

Fixpoint put_entry (k v : string) (o : list (string * string)) : list (string * string) :=
  match o with
  | [] => [(k, v)]
  | (k', v') :: rest =>
      if String.eqb k' k then (k', v) :: rest else (k', v') :: put_entry k v rest
  end.

(** [Object.fromEntries]: a repeated key keeps its place and takes the
    last value. *)
Definition fromEntries (entries : list (string * string)) : list (string * string) :=
  fold_left (fun o kv => put_entry (fst kv) (snd kv) o) entries [].

(** [new FormData(form).entries()]. *)
Definition form_entries (form : element) : list (string * string) :=
  List.map (fun nc => (fst nc, cvalue (snd nc))) (controls form).

Definition post (form : element) : options :=
  Options (Some "POST") (Some (fromEntries (form_entries form))).

(** [form.reset()]. *)
Definition reset_control (c : control) : control :=
  Control (cdefault c) (cdefault c) (coptions c).

Definition reset (e : element) : element :=
  set_controls (List.map (fun nc => (fst nc, reset_control (snd nc))) (controls e)) e.

(** A handler bound to an element that [getElementById] did not find is
    never registered: the event does nothing. *)
Definition listener (id : string) (handler : element -> M unit) : M unit := fun w =>
  match document w !! id with
  | Some e => handler e w
  | None => (Ok tt, w)
  end.

Definition login_submit : M unit :=
  listener "login-form" (fun loginForm =>
    try_catch
      (session <- apiFetch "/api/auth/login" (post loginForm) ;;
       tok <- lift (get session "token") ;;
       assign_state (set_token tok) ;;;
       rol <- lift (get session "role") ;;
       assign_state (set_role rol) ;;;
       usr <- lift (get session "username") ;;
       assign_state (set_username usr) ;;;
       setItem "token" tok ;;;
       setItem "role" rol ;;;
       setItem "username" usr ;;;
       setAuthenticated ;;;
       toggleFormsByRole ;;;
       loadBaseData ;;;
       loadDashboard ;;;
       showView "dashboard")
      console_error).

Definition logout_click : M unit :=
  listener "logout-btn" (fun _ =>
    try_catch
      (apiFetch "/api/auth/logout" (Options (Some "POST") None) ;;; ret tt)
      (fun _ => ret tt) ;;;
    assign_state (set_token VNull) ;;;
    assign_state (set_role VNull) ;;;
    assign_state (set_username VNull) ;;;
    removeItem "token" ;;;
    removeItem "role" ;;;
    removeItem "username" ;;;
    setAuthenticated ;;;
    showView "dashboard").

Definition when (b : bool) (c : M unit) : M unit := if b then c else ret tt.

(** The click handler of the navigation button whose [data-view] is
    [view]. *)
Definition nav_click (view : string) : M unit :=
  showView view ;;;
  when (String.eqb view "dashboard") loadDashboard ;;;
  when (String.eqb view "personnel")
    (cache <- gets (fun w => personnel (state w)) ;; renderPersonnel cache) ;;;
  when (String.eqb view "schedule") loadSchedule ;;;
  when (String.eqb view "plan") loadPlan ;;;
  when (String.eqb view "vacations") loadVacations ;;;
  when (String.eqb view "analytics") loadAnalytics.

(** [state.personnel.push(created)]. *)
Definition push_personnel (created : jsval) : M unit :=
  cache <- gets (fun w => personnel (state w)) ;;
  items <- lift (array_items "state.personnel" "push" cache) ;;
  assign_state (set_personnel (VArr (items ++ [created]))).

Definition personnel_submit : M unit :=
  listener "personnel-form" (fun personnelForm =>
    try_catch
      (created <- apiFetch "/api/personnel" (post personnelForm) ;;
       push_personnel created ;;;
       populateSelects ;;;
       cache <- gets (fun w => personnel (state w)) ;;
       renderPersonnel cache ;;;
       on_element "personnel-form" "reset" reset)
      console_error).

(** The three forms that reload their view after a successful POST. *)
Definition reload_submit (form endpoint : string) (reload : M unit) : M unit :=
  listener form (fun f =>
    try_catch
      (apiFetch endpoint (post f) ;;;
       reload ;;;
       on_element form "reset" reset)
      console_error).

Definition schedule_submit : M unit := reload_submit "schedule-form" "/api/schedule" loadSchedule.
Definition plan_submit : M unit := reload_submit "plan-form" "/api/plan" loadPlan.
Definition vacation_submit : M unit := reload_submit "vacation-form" "/api/vacations" loadVacations.

(** ** Start-up *)

(** [init], with the promise chain run to its end.  [catch] covers the
    base-data load, [showView] and the dashboard load. *)
Definition init : M unit :=
  tok <- gets (fun w => token (state w)) ;;
  if truthy tok then
    setAuthenticated ;;;
    toggleFormsByRole ;;;
    try_catch
      (loadBaseData ;;;
       showView "dashboard" ;;;
       loadDashboard)
      (fun _ =>
         (* token might be invalid *)
         assign_state (set_token VNull) ;;;
         removeItem "token" ;;;
         setAuthenticated)
  else setAuthenticated.

(** The session object as the script builds it when it is loaded. *)
Definition stored (ls : gmap string string) (k : string) : jsval :=
  match ls !! k with
  | Some v => VStr v
  | None => VNull
  end.

Definition initial_state (ls : gmap string string) : State :=
  MkState (stored ls "token") (stored ls "role") (stored ls "username")
          (VArr []) (VArr []) (VArr []).

(** ** Sample pages and servers

    Concrete worlds on which the theorems below are instantiated. *)

Definition plain : element := Element [] EmptyString EmptyString EmptyString [].

Definition panel (hidden : bool) : element :=
  Element (if hidden then ["view"; "hidden"] else ["view"])
          EmptyString EmptyString EmptyString [].

Definition field (v : string) : control := Control v EmptyString EmptyString.

Definition form (cs : list (string * control)) : element :=
  Element [] EmptyString EmptyString EmptyString cs.

Definition input (v : string) : element :=
  Element [] EmptyString EmptyString v [].

Definition demo_page : gmap string element :=
  list_to_map
    [("auth-section", plain); ("app", set_classList ["hidden"] plain);
     ("user-info", plain); ("logout-btn", plain); ("nav", plain);
     ("login-form", form [("username", field "olena"); ("password", field "s3cret")]);
     ("view-dashboard", panel false); ("view-personnel", panel true);
     ("view-analytics", panel true);
     ("dashboard-content", plain); ("personnel-table", plain);
     ("schedule-table", plain); ("plan-table", plain); ("vacation-table", plain);
     ("analytics-content", plain);
     ("analytics-start", input "2026-03-01"); ("analytics-end", input EmptyString);
     ("personnel-form",
      form [("full_name", field "A"); ("role", field "pilot"); ("unit", field "1")]);
     ("schedule-form", form [("person_id", field EmptyString);
                             ("duty_type_id", field EmptyString)])].

Definition demo_storage : gmap string string :=
  list_to_map [("token", "t0"); ("role", "admin"); ("username", "olena")].

Definition json_response (success : bool) (status : string) (payload : jsval) : outcome :=
  Responded (Response success status (Some "application/json") (Ok EmptyString)
                      (Ok payload)).

(** A server that rejects every request as unauthorized. *)
Definition unauthorized : list request -> request -> outcome :=
  fun _ _ => json_response false "Unauthorized" (VObj [("detail", VStr "Недійсний токен")]).

(** A server that answers 400 with an empty [detail]. *)
Definition empty_detail : list request -> request -> outcome :=
  fun _ _ => json_response false "Bad Request"
               (VObj [("detail", VStr EmptyString); ("message", VStr "Некоректні дані")]).

Definition person_A : jsval :=
  VObj [("id", VNum 7); ("full_name", VStr "A"); ("role", VStr "pilot");
        ("callsign", VNull); ("unit", VStr "1")].

(** A server that creates the person it is sent and serves empty
    collections otherwise. *)
Definition creating : list request -> request -> outcome :=
  fun _ req =>
    if String.eqb (method req) "POST" then json_response true "Created" person_A
    else json_response true "OK" (VArr []).

Definition demo_world (server : list request -> request -> outcome) : World :=
  MkWorld (initial_state demo_storage) demo_storage demo_page [] [] [] server
          "2026-03-01T10:00:00.000Z".

(** * Specification vocabulary *)

(** [keeps proj c]: running [c] leaves the part [proj] of the world as it
    was, whether [c] returns or throws. *)
Definition keeps {A X} (proj : World -> X) (c : M A) : Prop :=
  forall w, proj (snd (c w)) = proj w.

(** Parts of the world that do not depend on the page. *)
Definition page_free {X} (proj : World -> X) : Prop :=
  forall d w, proj (set_document d w) = proj w.

(** The session credentials, in memory and in durable storage. *)
Definition session (w : World) :=
  (token (state w), role (state w), username (state w),
   localStorage w !! "token", localStorage w !! "role", localStorage w !! "username").

(** The credentials other than the token. *)
Definition session_rest (w : World) :=
  (role (state w), username (state w),
   localStorage w !! "role", localStorage w !! "username").

(** The identifiers of the view panels that are shown. *)
Definition visible_panels (d : gmap string element) : list string :=
  (map_to_list (filter (fun kv => is_panel kv.2 = true /\ visible kv.2 = true) d)).*1.

(** The markup a renderer leaves in its container. *)
Definition rendered (id : string) (rw : result unit * World) : option string :=
  innerHTML <$> document (snd rw) !! id.

(** A request fails when [fetch] rejects or the status is not 2xx. *)
Definition failed (o : outcome) : Prop :=
  match o with
  | Rejected _ => True
  | Responded r => ok r = false
  end.

(** The [coptions] of every control of every form. *)
Definition select_options (w : World) : gmap string (list (string * string)) :=
  (fun e => List.map (fun nc => (fst nc, coptions (snd nc))) (controls e)) <$> document w.

(** [undefined] and [null]: the values whose properties cannot be read. *)
Definition nullish (v : jsval) : bool :=
  match v with
  | VUndef | VNull => true
  | _ => false
  end.

(** An array none of whose elements is [null]. *)
Definition records (v : jsval) : Prop :=
  exists items, v = VArr items /\ Forall (fun x => nullish x = false) items.

Definition has_control (name : string) (e : element) : bool :=
  existsb (fun nc => String.eqb (fst nc) name) (controls e).

(** Every form of the page that [populateSelects] fills holds the selects
    it assigns to. *)
Definition selects_ready (d : gmap string element) : Prop :=
  (forall f, d !! "schedule-form" = Some f ->
     Forall (fun n => has_control n f = true) ["person_id"; "duty_type_id"])
  /\ (forall f, d !! "plan-form" = Some f ->
        Forall (fun n => has_control n f = true)
               ["pilot_id"; "navigator_id"; "uav_id"; "vehicle_id"; "battery_id"])
  /\ (forall f, d !! "vacation-form" = Some f ->
        Forall (fun n => has_control n f = true) ["person_id"]).

Definition select_forms : list string := ["schedule-form"; "plan-form"; "vacation-form"].

(** [d'] is [d] with some choice lists rewritten: the same elements, the
    same controls, and nothing touched outside the three forms. *)
Definition refresh (d d' : gmap string element) : Prop :=
  forall k,
    match d !! k with
    | Some e =>
        exists e', d' !! k = Some e'
                   /\ (forall n, has_control n e' = has_control n e)
                   /\ (k ∉ select_forms -> e' = e)
    | None => d' !! k = None
    end.

(** A step of [populateSelects] on a page that is ready for it. *)
Definition refreshes (c : M unit) : Prop :=
  forall w, selects_ready (document w) ->
    exists d', c w = (Ok tt, set_document d' w) /\ refresh (document w) d'.

Definition refreshes_on (form : string) (c : M unit) : Prop :=
  forall w, selects_ready (document w) -> is_Some (document w !! form) ->
    exists d', c w = (Ok tt, set_document d' w) /\ refresh (document w) d'.

(** The selects each form must hold. *)
Definition required (form name : string) : Prop :=
  forall d f, selects_ready d -> d !! form = Some f -> has_control name f = true.

(** The capitals of Basic Latin. *)
Definition is_upper_ascii (a : ascii) : bool :=
  ((65 <=? nat_of_ascii a) && (nat_of_ascii a <=? 90))%nat.

(** A server that answers every request with an HTML page. *)
Definition html_page (success : bool) (status : string) : list request -> request -> outcome :=
  fun _ _ => Responded (Response success status (Some "text/html") (Ok "<h1>Bad Gateway</h1>")
                          (Throw (Error "Unexpected token <"))).

(** The page as a visitor without a stored session finds it. *)
Definition fresh_world (server : list request -> request -> outcome) : World :=
  MkWorld (initial_state ∅) ∅ demo_page [] [] [] server "2026-03-01T10:00:00.000Z".

(** The session view: which of the two sections is shown, and the text
    of the user badge. *)
Definition session_view (w : World) : option bool * option bool * option string :=
  (visible <$> document w !! "auth-section",
   visible <$> document w !! "app",
   textContent <$> document w !! "user-info").

(** The first control of a form with the given name. *)
Fixpoint find_control (name : string) (cs : list (string * control)) : option control :=
  match cs with
  | [] => None
  | (n, c) :: rest => if String.eqb n name then Some c else find_control name rest
  end.

(** The markup of the options of a select of a form. *)
Definition control_options (name : string) (e : element) : option string :=
  coptions <$> find_control name (controls e).

(** The form with the options of one of its selects replaced. *)
Definition set_option (name html : string) (e : element) : element :=
  match update_control name (set_coptions html) (controls e) with
  | Some cs => set_controls cs e
  | None => e
  end.

(** [eq.category === category], for a record that is neither [null] nor
    [undefined]. *)
Definition category_is (category : string) (x : jsval) : bool :=
  match get x "category" with
  | Ok v => strict_eq_str v category
  | Throw _ => false
  end.

(** A step of [populateSelects] with the page it leaves behind. *)
Definition fills (c : M unit) (g : gmap string element -> gmap string element) : Prop :=
  forall w, selects_ready (document w) ->
    c w = (Ok tt, set_document (g (document w)) w) /\ selects_ready (g (document w)).

Definition select (name : string) : string * control :=
  (name, Control EmptyString EmptyString EmptyString).

(** A page with the plan form, and caches filled with one person, one
    duty type and three pieces of equipment, one of them of a category
    that no select lists. *)
Definition stocked_world : World :=
  let w := demo_world creating in
  set_state
    (MkState (VStr "t0") (VStr "admin") (VStr "olena")
       (VArr [person_A])
       (VArr [VObj [("id", VNum 1); ("code", VStr "Д"); ("name", VStr "Добове")]])
       (VArr [VObj [("id", VNum 3); ("name", VStr "Лелека"); ("category", VStr "uav")];
              VObj [("id", VNum 4); ("name", VStr "Пікап"); ("category", VStr "vehicle")];
              VObj [("id", VNum 5); ("name", VStr "Рація"); ("category", VStr "radio")]]))
    (set_document
       (<["plan-form" := form [select "pilot_id"; select "navigator_id"; select "uav_id";
                               select "vehicle_id"; select "battery_id"]]> demo_page)
       w).

(** Two elements that differ at most in whether they carry the class
    [hidden]. *)
Definition same_but_hidden (e e' : element) : Prop :=
  innerHTML e' = innerHTML e
  /\ textContent e' = textContent e
  /\ value e' = value e
  /\ controls e' = controls e
  /\ forall c, c <> "hidden" -> contains c e' = contains c e.

(** A 2xx answer whose JSON body is [v]. *)
Definition answers_json (o : outcome) (v : jsval) : Prop :=
  exists r, o = Responded r /\ ok r = true
            /\ includes (default EmptyString (contentType r)) "application/json" = true
            /\ json r = Ok v.

(** A computation that makes no request, or one read. *)
Definition at_most_one_read {A} (c : M A) : Prop :=
  forall w, exists reqs,
    requests (snd (c w)) = requests w ++ reqs
    /\ length reqs <= 1
    /\ Forall (fun q => method q = "GET" /\ body q = None) reqs.

(** A server that accepts the login and is down for everything else. *)
Definition accepting : list request -> request -> outcome :=
  fun _ req =>
    if String.eqb (path req) "/api/auth/login"
    then json_response true "OK"
           (VObj [("token", VStr "t1"); ("role", VStr "planner"); ("username", VStr "olena")])
    else json_response false "Service Unavailable" VNull.

(** The three base reads, in the order [loadBaseData] issues them. *)
Definition base_requests (tok : jsval) : list request :=
  [build_request tok "/api/personnel" no_options;
   build_request tok "/api/duty-types" no_options;
   build_request tok "/api/equipment" no_options].

(** The answers to the three base reads, each given the requests made
    before it. *)
Definition base_answers (w : World) : list outcome :=
  let tok := token (state w) in
  [network w (requests w) (build_request tok "/api/personnel" no_options);
   network w (requests w ++ [build_request tok "/api/personnel" no_options])
     (build_request tok "/api/duty-types" no_options);
   network w (requests w ++ [build_request tok "/api/personnel" no_options;
                             build_request tok "/api/duty-types" no_options])
     (build_request tok "/api/equipment" no_options)].

(** The month or day a loader asks for: the value of its input, or the
    head of the current ISO timestamp when the input is empty. *)
Definition chosen (n : nat) (inp : element) (w : World) : string :=
  if String.eqb (value inp) EmptyString then slice0 n (isoNow w) else value inp.

Definition empty_month_world : World :=
  set_document (<["schedule-month" := input EmptyString]>
                  (<["plan-date" := input "2026-02-14"]> demo_page))
               (demo_world creating).

(** What a renderer may do to the world: nothing, or replace the
    [innerHTML] of its container. *)
Definition renders_into (id : string) (w : World) (rw : result unit * World) : Prop :=
  match rw with
  | (Throw _, w') => w' = w /\ is_Some (document w !! id)
  | (Ok _, w') =>
      (document w !! id = None /\ w' = w)
      \/ exists c h, document w !! id = Some c
                     /\ w' = set_document (<[id := set_innerHTML h c]> (document w)) w
  end.

Definition loading_views : list string :=
  ["dashboard"; "personnel"; "schedule"; "plan"; "vacations"; "analytics"].

(** The three handlers with their form and their endpoint. *)
Definition reloading_forms : list (M unit * string * string) :=
  [(schedule_submit, "schedule-form", "/api/schedule");
   (plan_submit, "plan-form", "/api/plan");
   (vacation_submit, "vacation-form", "/api/vacations")].

Definition vacation_page : gmap string element :=
  <["vacation-form" := form [("person_id", Control "7" EmptyString EmptyString);
                             ("start_date", Control "2026-04-01" EmptyString EmptyString)]]>
    demo_page.

Definition vacation_world : World :=
  set_document vacation_page
    (demo_world (fun _ req =>
       if String.eqb (method req) "POST" then json_response true "Created" (VObj [])
       else json_response true "OK"
              (VArr [VObj [("full_name", VStr "A"); ("start_date", VStr "2026-04-01");
                           ("end_date", VStr "2026-04-10"); ("status", VStr "new")]]))).

(** A server that rejects with a numeric code in [message]. *)
Definition coded : list request -> request -> outcome :=
  fun _ _ => json_response false "Bad Request" (VObj [("message", VNum 42)]).

Definition person_B : jsval :=
  VObj [("id", VNum 8); ("full_name", VStr "Б. Коваль"); ("role", VStr "navigator");
        ("callsign", VStr "Kit"); ("unit", VStr "2")].

(** A session whose cache already holds one person. *)
Definition staffed_world : World :=
  let w := demo_world creating in
  set_state (set_personnel (VArr [person_B]) (state w)) w.

(** A server that serves an object where the duty types should be a
    list. *)
Definition object_duties : list request -> request -> outcome :=
  fun _ req =>
    if String.eqb (method req) "POST" then json_response true "Created" person_A
    else if String.eqb (path req) "/api/duty-types" then json_response true "OK" (VObj [])
    else json_response true "OK" (VArr []).

(** The session after [loadBaseData] has run against that server. *)
Definition odd_duties_world : World := snd (loadBaseData (demo_world object_duties)).

(** A table cell that holds [s] as it is. *)
Definition cell (s : string) : string := "<td>" +:+ s +:+ "</td>".

(** The fields of a person that the table shows as they are. *)
Definition shown_fields : list string := ["full_name"; "role"; "unit"].

(** The text a template shows for a field of a record. *)
Definition field_text (record : jsval) (k : string) : string :=
  match get record k with
  | Ok v => to_string v
  | Throw _ => EmptyString
  end.

(** One option of a choice list, as the page is to hold it. *)
Definition option_markup (value label : string) : string :=
  "<option value=" +:+ dq +:+ value +:+ dq +:+ ">" +:+ label +:+ "</option>".

Definition person_label (p : jsval) : string :=
  field_text p "full_name" +:+ " (" +:+ field_text p "role" +:+ ")".

Definition duty_label (d : jsval) : string :=
  field_text d "code" +:+ " — " +:+ field_text d "name".

Definition equipment_label (e : jsval) : string := field_text e "name".

(** The choice list of a collection: the blank option, then one option
    per record, in the order of the collection, its value the [id] of
    the record. *)
Definition choice_list (label : jsval -> string) (items : list jsval) : string :=
  option_markup EmptyString "--"
  +:+ String.concat EmptyString
        (List.map (fun x => option_markup (field_text x "id") (label x)) items).

(** The selects of the forms of [d] hold in [d'] the choice lists of the
    three collections: people in the person selects, duty types in the
    duty select, and in each equipment select the equipment of its own
    category. *)
Definition selects_filled (d d' : gmap string element) (people duties gear : list jsval)
  : Prop :=
  (forall f, d !! "schedule-form" = Some f ->
     exists f', d' !! "schedule-form" = Some f'
       /\ control_options "person_id" f' = Some (choice_list person_label people)
       /\ control_options "duty_type_id" f' = Some (choice_list duty_label duties))
  /\ (forall f, d !! "plan-form" = Some f ->
        exists f', d' !! "plan-form" = Some f'
          /\ control_options "pilot_id" f' = Some (choice_list person_label people)
          /\ control_options "navigator_id" f' = Some (choice_list person_label people)
          /\ control_options "uav_id" f'
             = Some (choice_list equipment_label (List.filter (category_is "uav") gear))
          /\ control_options "vehicle_id" f'
             = Some (choice_list equipment_label (List.filter (category_is "vehicle") gear))
          /\ control_options "battery_id" f'
             = Some (choice_list equipment_label (List.filter (category_is "battery") gear)))
  /\ (forall f, d !! "vacation-form" = Some f ->
        exists f', d' !! "vacation-form" = Some f'
          /\ control_options "person_id" f' = Some (choice_list person_label people)).

(** A server that serves one person, one duty type and three pieces of
    equipment. *)
Definition serving : list request -> request -> outcome :=
  fun _ req =>
    if String.eqb (path req) "/api/personnel" then json_response true "OK" (VArr [person_A])
    else if String.eqb (path req) "/api/duty-types"
    then json_response true "OK"
           (VArr [VObj [("id", VNum 1); ("code", VStr "Д"); ("name", VStr "Добове")]])
    else if String.eqb (path req) "/api/equipment"
    then json_response true "OK"
           (VArr [VObj [("id", VNum 3); ("name", VStr "Лелека"); ("category", VStr "uav")];
                  VObj [("id", VNum 4); ("name", VStr "Пікап"); ("category", VStr "vehicle")];
                  VObj [("id", VNum 5); ("name", VStr "Рація"); ("category", VStr "radio")]])
    else json_response false "Not Found" VNull.

(** A session whose caches are out of date: another person, and neither
    duty types nor equipment. *)
Definition stale_world : World :=
  MkWorld (MkState (VStr "t0") (VStr "admin") (VStr "olena")
             (VArr [person_B]) (VArr []) (VArr []))
          demo_storage (document stocked_world) [] [] [] serving
          "2026-03-01T10:00:00.000Z".

(** * Properties *)

(** ** The value model on examples *)

Example get_demo :
  get (VObj [("detail", VStr "вже існує")]) "detail" = Ok (VStr "вже існує")
  /\ toLowerCase "ВІДПУСТКА Abc" = "відпустка abc"
  /\ includes (toLowerCase "Відпустка") "в" = true
  /\ utf16_length "Дані" = 4%Z
  /\ to_string (VArr [VNum 12; VNull; VStr "x"]) = "12,,x".
Proof. repeat split; reflexivity. Qed.

Section Frame.
Context {X : Type} (proj : World -> X).

(** ** Frame rules *)

Lemma keeps_ret {A} (a : A) : keeps proj (ret a).
Proof. done. Qed.

Lemma keeps_throw {A} (e : exn) : keeps proj (@throw A e).
Proof. done. Qed.

Lemma keeps_lift {A} (r : result A) : keeps proj (lift r).
Proof. done. Qed.

Lemma keeps_gets {A} (f : World -> A) : keeps proj (gets f).
Proof. done. Qed.

Lemma keeps_bind {A B} (c : M A) (k : A -> M B) :
  keeps proj c -> (forall a, keeps proj (k a)) -> keeps proj (bind c k).
Proof.
  intros Hc Hk w. unfold bind. specialize (Hc w).
  destruct (c w) as [[a|e] w']; simpl in *; [rewrite Hk|]; done.
Qed.

Lemma keeps_try_catch {A} (c : M A) (h : exn -> M A) :
  keeps proj c -> (forall e, keeps proj (h e)) -> keeps proj (try_catch c h).
Proof.
  intros Hc Hh w. unfold try_catch. specialize (Hc w).
  destruct (c w) as [[a|e] w']; simpl in *; [|rewrite Hh]; done.
Qed.

Lemma keeps_settle {A} (c : M A) : keeps proj c -> keeps proj (settle c).
Proof.
  intros Hc w. unfold settle. specialize (Hc w). by destruct (c w).
Qed.

Lemma keeps_when (b : bool) (c : M unit) : keeps proj c -> keeps proj (when b c).
Proof. by destruct b. Qed.

Lemma keeps_if_present (id : string) (c : M unit) :
  keeps proj c -> keeps proj (if_present id c).
Proof. intros Hc w. unfold if_present. by destruct (document w !! id). Qed.

Lemma keeps_listener (id : string) (h : element -> M unit) :
  (forall e, keeps proj (h e)) -> keeps proj (listener id h).
Proof. intros Hh w. unfold listener. destruct (document w !! id); [apply Hh|done]. Qed.

Lemma keeps_modify (f : World -> World) :
  (forall w, proj (f w) = proj w) -> keeps proj (modify f).
Proof. intros Hf w. apply Hf. Qed.

Lemma keeps_on_element id prop f : page_free proj -> keeps proj (on_element id prop f).
Proof. intros H w. unfold on_element. destruct (document w !! id); [apply H|done]. Qed.

Lemma keeps_assign_element id prop f : page_free proj -> keeps proj (assign_element id prop f).
Proof. intros H w. unfold assign_element. destruct (document w !! id); [apply H|done]. Qed.

Lemma keeps_read_value id : keeps proj (read_value id).
Proof. intros w. unfold read_value. by destruct (document w !! id). Qed.

Lemma keeps_render_into id html : page_free proj -> keeps proj (render_into id html).
Proof.
  intros H w. unfold render_into.
  destruct (document w !! id); [destruct html; [apply H|done]|done].
Qed.

Lemma keeps_assign_options form name html :
  page_free proj -> keeps proj (assign_options form name html).
Proof.
  intros H w. unfold assign_options.
  destruct (document w !! form); [|done].
  destruct (update_control _ _ _); [apply H|done].
Qed.

Lemma keeps_showView name : page_free proj -> keeps proj (showView name).
Proof. intros H w. unfold showView. destruct (_ !! _); apply H. Qed.

Lemma keeps_fetch req :
  (forall r w, proj (set_requests r w) = proj w) -> keeps proj (fetch req).
Proof. intros H w. apply H. Qed.
End Frame.

(** The frame rules applied along the structure of a handler. *)
Ltac keeps_side :=
  solve [ unfold page_free; intros;
          first [ reflexivity
                | cbv beta delta [session_rest session]; simpl;
                  rewrite ?lookup_delete_ne, ?lookup_insert_ne by done; reflexivity ] ].

Ltac keeps_step :=
  first
    [ apply keeps_on_element; keeps_side
    | apply keeps_assign_element; keeps_side
    | apply keeps_render_into; keeps_side
    | apply keeps_assign_options; keeps_side
    | apply keeps_showView; keeps_side
    | apply keeps_fetch; keeps_side
    | apply keeps_modify; keeps_side
    | apply keeps_read_value
    | apply keeps_ret | apply keeps_throw | apply keeps_lift | apply keeps_gets
    | apply keeps_bind; [|intros ?]
    | apply keeps_try_catch; [|intros ?]
    | apply keeps_settle
    | apply keeps_when
    | apply keeps_if_present
    | apply keeps_listener; intros ?
    | match goal with
      | |- keeps _ (if ?b then _ else _) => destruct b
      | |- keeps _ (match ?x with _ => _ end) => destruct x
      end ].

Ltac keeps_unfold :=
  unfold renderPersonnel, renderDashboard, renderSchedule, renderPlan,
    renderVacations, renderAnalytics, populateSelects, setAuthenticated,
    toggleFormsByRole, toggle_form, loadDashboard, loadSchedule, loadPlan,
    loadVacations, loadAnalytics, loadBaseData, value_or_today, apiFetch,
    showToast, console_error, assign_state, setItem, removeItem,
    push_personnel.

Ltac keeps_tac := keeps_unfold; repeat keeps_step.

Lemma nav_personnel_keeps_requests : keeps requests (nav_click "personnel").
Proof. unfold nav_click. simpl. keeps_tac. Qed.

(** ** View router (C7) *)

Lemma elem_of_visible_panels d id :
  id ∈ visible_panels d <->
  exists e, d !! id = Some e /\ is_panel e = true /\ visible e = true.
Proof.
  unfold visible_panels. rewrite list_elem_of_fmap. split.
  - intros [[k e] [-> H]]. apply elem_of_map_to_list in H.
    apply map_lookup_filter_Some in H as [H1 H2]. simpl in *. eauto.
  - intros (e & H1 & H2 & H3). exists (id, e). split; [done|].
    apply elem_of_map_to_list, map_lookup_filter_Some. done.
Qed.

Lemma NoDup_visible_panels d : NoDup (visible_panels d).
Proof. apply NoDup_fst_map_to_list. Qed.

Lemma contains_add c e : contains c (classList_add c e) = true.
Proof.
  unfold classList_add. destruct (contains c e) eqn:H; [done|].
  unfold contains. simpl. apply bool_decide_eq_true. set_solver.
Qed.

Lemma contains_add_ne c c' e : c <> c' -> contains c (classList_add c' e) = contains c e.
Proof.
  intros Hne. unfold classList_add. destruct (contains c' e); [done|].
  unfold contains. simpl. apply bool_decide_ext.
  rewrite elem_of_app, list_elem_of_singleton.
  split; [intros [?|?]; [done|congruence] | by left].
Qed.

Lemma contains_remove c e : contains c (classList_remove c e) = false.
Proof.
  unfold contains, classList_remove. simpl. apply bool_decide_eq_false.
  rewrite list_elem_of_filter. tauto.
Qed.

Lemma contains_remove_ne c c' e :
  c <> c' -> contains c (classList_remove c' e) = contains c e.
Proof.
  intros Hne. unfold contains, classList_remove. simpl. apply bool_decide_ext.
  rewrite list_elem_of_filter. tauto.
Qed.

Lemma hide_panel_is_panel e : is_panel (hide_panel e) = is_panel e.
Proof.
  unfold hide_panel. destruct (is_panel e) eqn:H; [|done].
  unfold is_panel in *. by rewrite contains_add_ne.
Qed.

Lemma hide_panel_hidden e : is_panel e = true -> visible (hide_panel e) = false.
Proof.
  intros H. unfold hide_panel, visible. rewrite H. by rewrite contains_add.
Qed.

(** [showView] never throws; the page it leaves behind. *)
Lemma showView_run name w :
  showView name w
  = (Ok tt, set_document (alter (classList_remove "hidden") ("view-" +:+ name)
                                (hide_panel <$> document w)) w).
Proof.
  unfold showView. destruct (_ !! _) eqn:H; simpl; do 2 f_equal.
  - apply map_eq. intros i. destruct (decide ("view-" +:+ name = i)) as [<-|Hne].
    + by rewrite lookup_insert_eq, lookup_alter_eq, H.
    + by rewrite lookup_insert_ne, lookup_alter_ne.
  - apply map_eq. intros i. destruct (decide ("view-" +:+ name = i)) as [<-|Hne].
    + by rewrite lookup_alter_eq, H.
    + by rewrite lookup_alter_ne.
Qed.

Lemma showView_document name w :
  document (snd (showView name w)) =
  alter (classList_remove "hidden") ("view-" +:+ name) (hide_panel <$> document w).
Proof. by rewrite showView_run. Qed.

Lemma showView_others name w id e :
  document (snd (showView name w)) !! id = Some e ->
  is_panel e = true -> visible e = true -> id = "view-" +:+ name.
Proof.
  rewrite showView_document. intros H Hp Hv.
  destruct (decide ("view-" +:+ name = id)) as [|Hne]; [done|].
  rewrite lookup_alter_ne, lookup_fmap in H by done.
  destruct (document w !! id) as [e0|]; [|done]. simplify_eq/=.
  rewrite hide_panel_is_panel in Hp. by rewrite hide_panel_hidden in Hv.
Qed.

Lemma showView_target name w t :
  document w !! ("view-" +:+ name) = Some t ->
  document (snd (showView name w)) !! ("view-" +:+ name)
  = Some (classList_remove "hidden" (hide_panel t)).
Proof.
  intros H. by rewrite showView_document, lookup_alter_eq, lookup_fmap, H.
Qed.

Lemma singleton_list (l : list string) (a : string) :
  NoDup l -> (forall x, x ∈ l <-> x = a) -> l = [a].
Proof.
  intros Hnd H. destruct l as [|x l].
  - exfalso. by apply (not_elem_of_nil a), H.
  - assert (x = a) as -> by (apply H; left).
    destruct l as [|y l]; [done|].
    assert (y = a) as -> by (apply H; right; left).
    apply NoDup_cons in Hnd as [Hnd _]. exfalso. apply Hnd. left.
Qed.

(** C7, as amended: after [showView name] every panel other than
    [view-name] is hidden; when an element with that id exists and is a
    panel it is the one panel shown, and when no element has that id no
    panel is shown. *)
Theorem showView_one_panel (name : string) (w : World) :
  let d' := document (snd (showView name w)) in
  (forall id, id ∈ visible_panels d' -> id = "view-" +:+ name)
  /\ (forall t, document w !! ("view-" +:+ name) = Some t -> is_panel t = true ->
      visible_panels d' = ["view-" +:+ name])
  /\ (document w !! ("view-" +:+ name) = None -> visible_panels d' = []).
Proof.
  intros d'. assert (forall id, id ∈ visible_panels d' -> id = "view-" +:+ name) as Hothers.
  { intros id (e & H & Hp & Hv)%elem_of_visible_panels. eapply showView_others; eauto. }
  split; [done|split].
  - intros t Ht Hp. apply singleton_list; [apply NoDup_visible_panels|].
    intros x. split; [apply Hothers|intros ->].
    apply elem_of_visible_panels. eexists. split; [by apply showView_target|].
    unfold visible, is_panel.
    rewrite contains_remove, contains_remove_ne by done.
    fold (is_panel (hide_panel t)). by rewrite hide_panel_is_panel.
  - intros Hnone. destruct (visible_panels d') as [|x l] eqn:E; [done|].
    assert (x ∈ x :: l) as Hx by left.
    pose proof (Hothers _ Hx) as ->. rewrite <- E in Hx.
    apply elem_of_visible_panels in Hx as (e & H & _).
    subst d'. by rewrite showView_document, lookup_alter_eq, lookup_fmap, Hnone in H.
Qed.

(** C7, as stated, fails: asked for a view that has no panel, [showView]
    hides every panel and shows none. *)
Lemma showView_unknown_view_shows_nothing :
  visible_panels (document (demo_world unauthorized)) = ["view-dashboard"]
  /\ visible_panels (document (snd (showView "reports" (demo_world unauthorized)))) = [].
Proof. split; vm_compute; reflexivity. Qed.

Example showView_personnel_demo :
  visible_panels (document (snd (showView "personnel" (demo_world unauthorized))))
  = ["view-personnel"].
Proof. vm_compute. reflexivity. Qed.

(** ** Running a sequence *)

Lemma bind_ok {A B} (c : M A) (k : A -> M B) w a w' :
  c w = (Ok a, w') -> bind c k w = k a w'.
Proof. intros H. unfold bind. by rewrite H. Qed.

Lemma bind_throw {A B} (c : M A) (k : A -> M B) w e w' :
  c w = (Throw e, w') -> bind c k w = (Throw e, w').
Proof. intros H. unfold bind. by rewrite H. Qed.

Lemma gets_run {A} (f : World -> A) w : gets f w = (Ok (f w), w).
Proof. done. Qed.

(** ** Forms by role (C4) *)

Lemma privileged_iff r :
  privileged r = true <-> r = VStr "admin" \/ r = VStr "planner".
Proof.
  unfold privileged, strict_eq_str. destruct r; try (split; [done|intros [?|?]; done]).
  rewrite orb_true_iff, !String.eqb_eq. split; (intros [?|?]; [left|right]; congruence).
Qed.

Lemma toggle_form_run id priv w :
  toggle_form id priv w
  = (Ok tt, set_document (alter (classList_toggle "hidden" (negb priv)) id (document w)) w).
Proof.
  unfold toggle_form, if_present, on_element.
  destruct (document w !! id) eqn:H; f_equal.
  - f_equal. apply map_eq. intros i. destruct (decide (id = i)) as [<-|Hne].
    + by rewrite lookup_insert_eq, lookup_alter_eq, H.
    + by rewrite lookup_insert_ne, lookup_alter_ne.
  - destruct w; unfold set_document; simpl in *. f_equal. apply map_eq. intros i.
    destruct (decide (id = i)) as [<-|Hne].
    + by rewrite lookup_alter_eq, H.
    + by rewrite lookup_alter_ne.
Qed.

Lemma visible_toggle force e : visible (classList_toggle "hidden" force e) = negb force.
Proof.
  unfold visible, classList_toggle. destruct force; simpl.
  - by rewrite contains_add.
  - by rewrite contains_remove.
Qed.

(** C4: after [toggleFormsByRole] each creation form of the page is shown
    exactly when the session role is [admin] or [planner]. *)
Theorem forms_visible_iff_privileged (w : World) (id : string) (e : element) :
  id ∈ creation_forms ->
  document w !! id = Some e ->
  fst (toggleFormsByRole w) = Ok tt
  /\ exists e', document (snd (toggleFormsByRole w)) !! id = Some e'
     /\ (visible e' = true <->
         role (state w) = VStr "admin" \/ role (state w) = VStr "planner").
Proof.
  intros Hid He. unfold toggleFormsByRole.
  erewrite bind_ok by apply gets_run. cbv beta zeta.
  do 3 (erewrite bind_ok by apply toggle_form_run). rewrite toggle_form_run. simpl.
  split; [done|].
  exists (classList_toggle "hidden" (negb (privileged (role (state w)))) e).
  split.
  - unfold creation_forms in Hid. rewrite !elem_of_cons, elem_of_nil in Hid.
    destruct Hid as [->|[->|[->|[->|[]]]]];
      repeat first [ rewrite lookup_alter_eq | rewrite lookup_alter_ne by done ];
      by rewrite He.
  - rewrite <- privileged_iff. by rewrite visible_toggle, negb_involutive.
Qed.

Lemma forms_visible_iff_privileged_witness :
  fst (toggleFormsByRole (demo_world unauthorized)) = Ok tt
  /\ exists e', document (snd (toggleFormsByRole (demo_world unauthorized))) !! "personnel-form"
             = Some e'
     /\ (visible e' = true <->
         role (state (demo_world unauthorized)) = VStr "admin"
         \/ role (state (demo_world unauthorized)) = VStr "planner").
Proof.
  apply (forms_visible_iff_privileged (demo_world unauthorized) "personnel-form"
           (form [("full_name", field "A"); ("role", field "pilot"); ("unit", field "1")])).
  - unfold creation_forms. left.
  - vm_compute. reflexivity.
Defined.

(** ** Requests (C5, C9) *)

Lemma apiFetch_requests p o w :
  requests (snd (apiFetch p o w)) = requests w ++ [build_request (token (state w)) p o].
Proof.
  unfold apiFetch, bind, gets, try_catch, fetch, lift. simpl.
  destruct (read_response _); done.
Qed.

Lemma renderers_keep_requests v :
  keeps requests (renderPersonnel v) /\ keeps requests (renderDashboard v)
  /\ keeps requests (renderSchedule v) /\ keeps requests (renderPlan v)
  /\ keeps requests (renderVacations v) /\ keeps requests (renderAnalytics v).
Proof. repeat split; keeps_tac. Qed.

Lemma bind_requests {A B} (c : M A) (k : A -> M B) w :
  (forall a, keeps requests (k a)) ->
  requests (snd (bind c k w)) = requests (snd (c w)).
Proof.
  intros Hk. unfold bind. destruct (c w) as [[a|e] w']; simpl; [apply Hk|done].
Qed.

Lemma loadDashboard_requests w :
  requests (snd (loadDashboard w))
  = requests w ++ [build_request (token (state w)) "/api/dashboard" no_options].
Proof.
  unfold loadDashboard. rewrite bind_requests by (intros; keeps_tac).
  apply apiFetch_requests.
Qed.

(** C5: the click on the dashboard button hands exactly one request to
    [fetch], the dashboard read; the click on the personnel button hands
    none, and writes the table rendered from the cached collection. *)
Theorem nav_dashboard_one_fetch_personnel_none (w : World) :
  requests (snd (nav_click "dashboard" w))
  = requests w ++ [Request "GET" "/api/dashboard" (request_headers (token (state w))) None]
  /\ requests (snd (nav_click "personnel" w)) = requests w
  /\ (forall c items rows,
        document w !! "personnel-table" = Some c ->
        personnel (state w) = VArr items ->
        map_items personnel_row items = Ok rows ->
        fst (nav_click "personnel" w) = Ok tt
        /\ exists c', document (snd (nav_click "personnel" w)) !! "personnel-table" = Some c'
           /\ innerHTML c' = personnel_table (join rows)).
Proof.
  split; [|split].
  - unfold nav_click. erewrite bind_ok by apply showView_run.
    rewrite bind_requests by (intros; unfold when; simpl; keeps_tac).
    simpl. by rewrite loadDashboard_requests.
  - apply nav_personnel_keeps_requests.
  - intros c items rows Hc Hp Hrows.
    unfold nav_click. erewrite bind_ok by apply showView_run.
    simpl. unfold when, bind, gets, ret, renderPersonnel, render_into. simpl.
    rewrite lookup_alter_ne, lookup_fmap, Hc, Hp by done. simpl.
    unfold map_join. simpl. rewrite Hrows. simpl.
    split; [done|]. eexists. by rewrite lookup_insert_eq.
Qed.

Example nav_personnel_demo :
  let w := snd (personnel_submit (demo_world creating)) in
  personnel (state w) = VArr [person_A]
  /\ requests (snd (nav_click "personnel" w)) = requests w
  /\ rendered "personnel-table" (nav_click "personnel" w)
     = match personnel_row person_A with
       | Ok row => Some (personnel_table row)
       | Throw _ => None
       end
  /\ visible_panels (document (snd (nav_click "personnel" w))) = ["view-personnel"].
Proof. repeat split; vm_compute; reflexivity. Qed.

(** C9: the analytics request carries the query exactly when both inputs
    hold a value; with one of them empty the path has no query. *)
Theorem loadAnalytics_query (w : World) (s e : element) :
  document w !! "analytics-start" = Some s ->
  document w !! "analytics-end" = Some e ->
  exists q,
    requests (snd (loadAnalytics w))
    = requests w ++ [Request "GET" ("/api/analytics/summary" +:+ q)
                             (request_headers (token (state w))) None]
    /\ (value s <> EmptyString -> value e <> EmptyString ->
        q = "?start=" +:+ value s +:+ "&end=" +:+ value e)
    /\ (value s = EmptyString \/ value e = EmptyString -> q = EmptyString).
Proof.
  intros Hs He. exists (analytics_query (value s) (value e)). split; [|split].
  - unfold loadAnalytics, bind at 1, read_value. rewrite Hs.
    unfold bind at 1. rewrite He.
    rewrite bind_requests by (intros; keeps_tac).
    by rewrite apiFetch_requests.
  - intros H1 H2. unfold analytics_query.
    apply String.eqb_neq in H1, H2. by rewrite H1, H2.
  - intros [H|H]; unfold analytics_query; rewrite H; simpl; [done|].
    by rewrite andb_false_r.
Qed.

Lemma loadAnalytics_query_witness :
  exists q,
    requests (snd (loadAnalytics (demo_world creating)))
    = [Request "GET" ("/api/analytics/summary" +:+ q)
               [("Content-Type", "application/json"); ("Authorization", "Bearer t0")] None]
    /\ (("2026-03-01" : string) <> EmptyString -> EmptyString <> EmptyString ->
        q = "?start=" +:+ "2026-03-01" +:+ "&end=" +:+ EmptyString)
    /\ (("2026-03-01" : string) = EmptyString \/ EmptyString = EmptyString -> q = EmptyString).
Proof.
  apply (loadAnalytics_query (demo_world creating) (input "2026-03-01") (input EmptyString));
    vm_compute; reflexivity.
Defined.

(** ** API client (C3) *)

Lemma fetch_run req w :
  fetch req w = (Ok (network w (requests w) req), set_requests (requests w ++ [req]) w).
Proof. done. Qed.

(** What [apiFetch] does once the answer is known. *)
Lemma apiFetch_run p o w :
  let req := build_request (token (state w)) p o in
  let w1 := set_requests (requests w ++ [req]) w in
  apiFetch p o w =
  match read_response (network w (requests w) req) with
  | Ok payload => (Ok payload, w1)
  | Throw e => (Throw e, set_toasts (toasts w ++ [toast_text e]) w1)
  end.
Proof.
  unfold apiFetch, bind, gets, try_catch, fetch, lift, showToast, modify, throw. simpl.
  destruct (read_response _); done.
Qed.

Lemma get_ok v k : nullish v = false -> exists x, get v k = Ok x.
Proof. destruct v; simpl; eauto; done. Qed.

Section Failure.
Variables (w : World) (p : string) (o : options) (r : response) (payload : jsval).
Hypothesis answered :
  network w (requests w) (build_request (token (state w)) p o) = Responded r.
Hypothesis not_ok : ok r = false.
Hypothesis is_json :
  includes (default EmptyString (contentType r)) "application/json" = true.
Hypothesis parsed : json r = Ok payload.

Lemma apiFetch_failure msg :
  failure_text payload r = Ok msg ->
  fst (apiFetch p o w) = Throw (Error (to_string msg))
  /\ toasts (snd (apiFetch p o w)) = toasts w ++ [toast_text (Error (to_string msg))].
Proof using answered not_ok is_json parsed.
  intros Hmsg. rewrite apiFetch_run. cbv zeta. rewrite answered.
  unfold read_response. rewrite is_json, parsed, not_ok. simpl. rewrite Hmsg. done.
Qed.

Lemma apiFetch_unreadable e :
  failure_text payload r = Throw e ->
  fst (apiFetch p o w) = Throw e
  /\ toasts (snd (apiFetch p o w)) = toasts w ++ [toast_text e].
Proof using answered not_ok is_json parsed.
  intros Hmsg. rewrite apiFetch_run. cbv zeta. rewrite answered.
  unfold read_response. rewrite is_json, parsed, not_ok. simpl. rewrite Hmsg. done.
Qed.

Lemma toast_text_nonempty s : s <> EmptyString -> toast_text (Error s) = s.
Proof. intros H. unfold toast_text. simpl. apply String.eqb_neq in H. by rewrite H. Qed.

End Failure.



(** ** Empty collections (C2) *)

Lemma render_into_run id c h w :
  document w !! id = Some c ->
  render_into id (Ok h) w
  = (Ok tt, set_document (<[id := set_innerHTML h c]> (document w)) w).
Proof. intros H. unfold render_into. by rewrite H. Qed.

Lemma rendered_render_into id c h w :
  document w !! id = Some c -> rendered id (render_into id (Ok h) w) = Some h.
Proof.
  intros H. unfold rendered. rewrite (render_into_run _ c) by done. simpl.
  by rewrite lookup_insert_eq.
Qed.

(** C2, as amended: the schedule, plan and vacation renderers write the
    empty-state message for an empty collection; the personnel and
    analytics renderers write their tables with an empty body, and the
    dashboard replaces only its empty card grid by a placeholder. *)
Theorem empty_collection_rendering (w : World) :
  (forall c, document w !! "schedule-table" = Some c ->
     rendered "schedule-table" (renderSchedule (VArr []) w) = Some no_data)
  /\ (forall c, document w !! "plan-table" = Some c ->
        rendered "plan-table" (renderPlan (VArr []) w) = Some no_data)
  /\ (forall c, document w !! "vacation-table" = Some c ->
        rendered "vacation-table" (renderVacations (VArr []) w) = Some no_data)
  /\ (forall c, document w !! "personnel-table" = Some c ->
        rendered "personnel-table" (renderPersonnel (VArr []) w)
        = Some (personnel_table EmptyString))
  /\ (forall c, document w !! "analytics-content" = Some c ->
        rendered "analytics-content"
          (renderAnalytics (VObj [("duty_summary", VArr []); ("workload", VArr [])]) w)
        = Some (analytics_html EmptyString EmptyString))
  /\ (forall c date, document w !! "dashboard-content" = Some c ->
        rendered "dashboard-content"
          (renderDashboard (VObj [("plan", VArr []); ("statuses", VArr []);
                                  ("date", VStr date)]) w)
        = Some (dashboard_html EmptyString date EmptyString)).
Proof.
  repeat split; intros c; intros;
    (eapply rendered_render_into; eassumption).
Qed.

(** C2, as stated, fails: for an empty personnel collection the renderer
    writes a table (header and empty body), not the empty-state message;
    so does the analytics renderer. *)
Lemma renderPersonnel_empty_writes_table :
  rendered "personnel-table" (renderPersonnel (VArr []) (demo_world creating))
  = Some (personnel_table EmptyString)
  /\ includes (personnel_table EmptyString) "<table" = true
  /\ includes (personnel_table EmptyString) no_data = false
  /\ rendered "schedule-table" (renderSchedule (VArr []) (demo_world creating))
     = Some no_data.
Proof. repeat split; vm_compute; reflexivity. Qed.

Example renderAnalytics_empty_writes_tables :
  rendered "analytics-content"
    (renderAnalytics (VObj [("duty_summary", VArr []); ("workload", VArr [])])
       (demo_world creating))
  = Some (analytics_html EmptyString EmptyString)
  /\ includes (analytics_html EmptyString EmptyString) no_data = false.
Proof. split; vm_compute; reflexivity. Qed.

(** ** A failed creation (C10) *)

Lemma read_response_failed o : failed o -> exists e, read_response o = Throw e.
Proof.
  destruct o as [e|r]; simpl; [eauto|]. intros ->.
  destruct (if includes _ _ then json r else _) as [payload|e]; simpl; [|eauto].
  destruct (failure_text payload r); simpl; eauto.
Qed.

Lemma apiFetch_keeps_page p o : keeps (fun w => (state w, document w)) (apiFetch p o).
Proof. keeps_tac. Qed.

(** C10: when the POST of the personnel form fails, the handler leaves
    the session object (the personnel cache with it) and the whole page
    (choice lists and personnel table with it) as they were; the error
    goes to the console. *)
Theorem personnel_submit_failure_changes_nothing (w : World) (form : element) :
  document w !! "personnel-form" = Some form ->
  failed (network w (requests w)
            (build_request (token (state w)) "/api/personnel" (post form))) ->
  let w' := snd (personnel_submit w) in
  fst (personnel_submit w) = Ok tt
  /\ personnel (state w') = personnel (state w)
  /\ state w' = state w
  /\ document w' = document w
  /\ select_options w' = select_options w
  /\ rendered "personnel-table" (personnel_submit w)
     = innerHTML <$> document w !! "personnel-table"
  /\ exists e, console w' = console w ++ [e].
Proof.
  intros Hform Hfail w'.
  destruct (read_response_failed _ Hfail) as [e He].
  assert (personnel_submit w
          = (Ok tt, set_console (console w ++ [e])
                      (set_toasts (toasts w ++ [toast_text e])
                         (set_requests
                            (requests w ++ [build_request (token (state w))
                                              "/api/personnel" (post form)]) w)))) as Hrun.
  { unfold personnel_submit, listener. rewrite Hform. unfold try_catch.
    erewrite bind_throw by (rewrite apiFetch_run; cbv zeta; rewrite He; reflexivity).
    reflexivity. }
  subst w'. unfold rendered, select_options. rewrite Hrun. simpl.
  repeat split; eauto.
Qed.

Lemma personnel_submit_failure_witness :
  let w := demo_world unauthorized in
  let w' := snd (personnel_submit w) in
  fst (personnel_submit w) = Ok tt
  /\ personnel (state w') = personnel (state w)
  /\ state w' = state w
  /\ document w' = document w
  /\ select_options w' = select_options w
  /\ rendered "personnel-table" (personnel_submit w)
     = innerHTML <$> document w !! "personnel-table"
  /\ exists e, console w' = console w ++ [e].
Proof.
  apply (personnel_submit_failure_changes_nothing (demo_world unauthorized)
           (form [("full_name", field "A"); ("role", field "pilot"); ("unit", field "1")])).
  - vm_compute. reflexivity.
  - vm_compute. reflexivity.
Defined.

(** ** Refreshing the choice lists *)

Lemma refresh_refl d : refresh d d.
Proof. intros k. destruct (d !! k); eauto. Qed.

Lemma refresh_trans d1 d2 d3 : refresh d1 d2 -> refresh d2 d3 -> refresh d1 d3.
Proof.
  intros H12 H23 k. specialize (H12 k). specialize (H23 k).
  destruct (d1 !! k) as [e1|].
  - destruct H12 as (e2 & He2 & Hc2 & Hf2). rewrite He2 in H23.
    destruct H23 as (e3 & He3 & Hc3 & Hf3). exists e3. repeat split; [done| |].
    + intros n. by rewrite Hc3.
    + intros Hk. by rewrite Hf3, Hf2.
  - by rewrite H12 in H23.
Qed.

Lemma refresh_lookup d d' k f :
  refresh d d' -> d' !! k = Some f ->
  exists e, d !! k = Some e /\ forall n, has_control n f = has_control n e.
Proof.
  intros Hr Hf. specialize (Hr k). destruct (d !! k) as [e|]; [|congruence].
  destruct Hr as (e' & He' & Hc & _). simplify_eq. eauto.
Qed.

Lemma refresh_ready d d' : refresh d d' -> selects_ready d -> selects_ready d'.
Proof.
  intros Hr (H1 & H2 & H3).
  repeat split; intros f Hf;
    destruct (refresh_lookup _ _ _ _ Hr Hf) as (e & He & Hc);
    [specialize (H1 _ He) as H | specialize (H2 _ He) as H | specialize (H3 _ He) as H];
    (eapply Forall_impl; [exact H|]); intros n Hn; simpl in *; by rewrite Hc.
Qed.

Lemma update_control_has name f cs :
  existsb (fun nc => String.eqb (fst nc) name) cs = true ->
  exists cs', update_control name f cs = Some cs'
    /\ forall n, existsb (fun nc => String.eqb (fst nc) n) cs'
                 = existsb (fun nc => String.eqb (fst nc) n) cs.
Proof.
  induction cs as [|[n c] cs IH]; simpl; [done|].
  destruct (String.eqb n name) eqn:E; simpl.
  - intros _. eexists. split; [done|]. done.
  - intros H. destruct (IH H) as (cs' & -> & Hcs'). simpl. eexists. split; [done|].
    intros m. simpl. by rewrite Hcs'.
Qed.

Lemma set_document_twice d d' w : set_document d' (set_document d w) = set_document d' w.
Proof. done. Qed.

Lemma refreshes_bind c1 c2 : refreshes c1 -> refreshes c2 -> refreshes (c1 ;;; c2).
Proof.
  intros H1 H2 w Hw. destruct (H1 w Hw) as (d1 & E1 & R1).
  destruct (H2 (set_document d1 w)) as (d2 & E2 & R2).
  { simpl. by eapply refresh_ready. }
  exists d2. split; [|by eapply refresh_trans].
  erewrite bind_ok by exact E1. by rewrite E2.
Qed.

Lemma refreshes_on_bind form c1 c2 :
  refreshes_on form c1 -> refreshes_on form c2 -> refreshes_on form (c1 ;;; c2).
Proof.
  intros H1 H2 w Hw Hf. destruct (H1 w Hw Hf) as (d1 & E1 & R1).
  destruct (H2 (set_document d1 w)) as (d2 & E2 & R2).
  { simpl. by eapply refresh_ready. }
  { simpl. destruct Hf as [e He]. specialize (R1 form). rewrite He in R1.
    destruct R1 as (e' & -> & _). eauto. }
  exists d2. split; [|by eapply refresh_trans].
  erewrite bind_ok by exact E1. by rewrite E2.
Qed.

Lemma refreshes_if_present form c : refreshes_on form c -> refreshes (if_present form c).
Proof.
  intros H w Hw. unfold if_present. destruct (document w !! form) eqn:E.
  - apply H; [done|]. rewrite E. eauto.
  - exists (document w). split; [by destruct w|apply refresh_refl].
Qed.

Lemma refreshes_lift {A} (r : result A) (k : A -> M unit) a :
  r = Ok a -> refreshes (k a) -> refreshes (bind (lift r) k).
Proof. intros -> H w Hw. apply H, Hw. Qed.

Lemma refreshes_on_assign form name html :
  form ∈ select_forms -> required form name ->
  refreshes_on form (assign_options form name html).
Proof.
  intros Hin Hreq w Hw [f Hf]. unfold assign_options. rewrite Hf.
  destruct (update_control_has name (set_coptions html) (controls f)) as (cs & -> & Hcs).
  { by eapply Hreq. }
  eexists. split; [done|]. intros k. destruct (decide (form = k)) as [<-|Hne].
  - rewrite Hf, lookup_insert_eq. eexists. split; [done|]. split; [|done].
    intros n. unfold has_control. simpl. apply Hcs.
  - rewrite lookup_insert_ne by done. destruct (document w !! k); eauto.
Qed.

Lemma required_selects :
  required "schedule-form" "person_id" /\ required "schedule-form" "duty_type_id"
  /\ required "plan-form" "pilot_id" /\ required "plan-form" "navigator_id"
  /\ required "plan-form" "uav_id" /\ required "plan-form" "vehicle_id"
  /\ required "plan-form" "battery_id" /\ required "vacation-form" "person_id".
Proof.
  repeat split.
  all: intros d f (H1 & H2 & H3) Hf.
  1-2: specialize (H1 _ Hf) as H.
  3-7: specialize (H2 _ Hf) as H.
  8: specialize (H3 _ Hf) as H.
  all: rewrite Forall_forall in H; apply H; set_solver.
Qed.

Lemma map_items_ok {A} (f : jsval -> result A) items :
  Forall (fun x => exists y, f x = Ok y) items -> exists ys, map_items f items = Ok ys.
Proof.
  induction 1 as [|x items [y Hy] _ [ys IH]]; simpl; [eauto|].
  rewrite Hy. simpl. rewrite IH. simpl. eauto.
Qed.

Lemma filter_items_ok f items :
  Forall (fun x => nullish x = false) items ->
  (forall x, nullish x = false -> exists b, f x = Ok b) ->
  exists kept, filter_items f items = Ok kept /\ Forall (fun x => nullish x = false) kept.
Proof.
  intros H Hf. induction H as [|x items Hx _ (kept & IH & Hk)]; simpl; [eauto|].
  destruct (Hf x Hx) as [b ->]. simpl. rewrite IH. simpl.
  eexists. split; [done|]. destruct b; [constructor|]; done.
Qed.

Ltac row_ok :=
  let H := fresh in
  intros ? H;
  repeat match goal with
         | |- context [get ?v ?k] =>
             let x := fresh "x" in
             let E := fresh "E" in
             destruct (get_ok v k H) as [x E]; rewrite E; cbn [rbind]
         end;
  eauto.

Lemma person_option_ok p : nullish p = false -> exists s, person_option p = Ok s.
Proof. revert p. unfold person_option. row_ok. Qed.

Lemma duty_option_ok p : nullish p = false -> exists s, duty_option p = Ok s.
Proof. revert p. unfold duty_option. row_ok. Qed.

Lemma equipment_option_ok p : nullish p = false -> exists s, equipment_option p = Ok s.
Proof. revert p. unfold equipment_option. row_ok. Qed.

Lemma personnel_row_ok p : nullish p = false -> exists s, personnel_row p = Ok s.
Proof. revert p. unfold personnel_row. row_ok. Qed.

Lemma has_category_ok c p : nullish p = false -> exists b, has_category c p = Ok b.
Proof. revert p. unfold has_category. row_ok. Qed.

Lemma map_join_ok recv v f :
  records v -> (forall x, nullish x = false -> exists s, f x = Ok s) ->
  exists s, map_join recv v f = Ok s.
Proof.
  intros (items & -> & H) Hf. unfold map_join. simpl.
  destruct (map_items_ok f items) as [ys ->]; [|simpl; eauto].
  eapply Forall_impl; [exact H|]. intros x Hx. by apply Hf.
Qed.

Lemma equipment_options_ok c v : records v -> exists s, equipment_options c v = Ok s.
Proof.
  intros (items & -> & H). unfold equipment_options. simpl.
  destruct (filter_items_ok (has_category c) items H) as (kept & -> & Hk).
  { intros. by apply has_category_ok. }
  simpl. destruct (map_items_ok equipment_option kept) as [ys ->]; [|simpl; eauto].
  eapply Forall_impl; [exact Hk|]. intros x Hx. by apply equipment_option_ok.
Qed.

(** On a page that holds the selects and with caches free of [null],
    [populateSelects] returns, and only rewrites choice lists. *)
Lemma populateSelects_ok w :
  selects_ready (document w) ->
  records (personnel (state w)) ->
  records (dutyTypes (state w)) ->
  records (equipment (state w)) ->
  exists d', populateSelects w = (Ok tt, set_document d' w) /\ refresh (document w) d'.
Proof.
  intros Hw Hp Hd He. unfold populateSelects.
  erewrite bind_ok by apply gets_run.
  destruct (map_join_ok "state.personnel" _ person_option Hp person_option_ok) as [po Hpo].
  destruct (map_join_ok "state.dutyTypes" _ duty_option Hd duty_option_ok) as [do Hdo].
  destruct (equipment_options_ok "uav" _ He) as [uo Huo].
  destruct (equipment_options_ok "vehicle" _ He) as [vo Hvo].
  destruct (equipment_options_ok "battery" _ He) as [bo Hbo].
  destruct required_selects as (R1 & R2 & R3 & R4 & R5 & R6 & R7 & R8).
  match goal with
  | |- exists d', ?c w = _ /\ _ => cut (refreshes c); [intros Hc; exact (Hc w Hw)|]
  end.
  apply (refreshes_lift _ _ po Hpo).
  repeat first
    [ apply refreshes_bind
    | eapply refreshes_lift; [eassumption|]
    | apply refreshes_if_present
    | apply refreshes_on_bind
    | apply refreshes_on_assign; [compute_done|assumption] ].
Qed.

(** ** Strings built by append *)

Lemma append_cons a s t : String a s +:+ t = String a (s +:+ t).
Proof. reflexivity. Qed.

Lemma append_nil_r s : s +:+ EmptyString = s.
Proof. induction s as [|a s IH]; [done|]. by rewrite append_cons, IH. Qed.

Lemma append_assoc s t u : (s +:+ t) +:+ u = s +:+ (t +:+ u).
Proof. induction s as [|a s IH]; [done|]. by rewrite !append_cons, IH. Qed.

Lemma join_cons x xs : join (x :: xs) = x +:+ join xs.
Proof.
  unfold join. destruct xs as [|y ys]; [symmetry; apply append_nil_r|reflexivity].
Qed.

Lemma join_app xs ys : join (xs ++ ys) = join xs +:+ join ys.
Proof.
  induction xs as [|x xs IH]; [done|].
  change ((x :: xs) ++ ys) with (x :: (xs ++ ys)).
  by rewrite !join_cons, IH, append_assoc.
Qed.

Lemma map_items_app {A} (f : jsval -> result A) xs ys rs qs :
  map_items f xs = Ok rs -> map_items f ys = Ok qs ->
  map_items f (xs ++ ys) = Ok (rs ++ qs).
Proof.
  revert rs. induction xs as [|x xs IH]; simpl; intros rs Hx Hy.
  - by simplify_eq.
  - destruct (f x); [|done]. simpl in *.
    destruct (map_items f xs) as [rs'|]; [|done]. simpl in *. simplify_eq.
    by rewrite (IH rs' eq_refl Hy).
Qed.

Lemma prefix_append b c : String.prefix b (b +:+ c) = true.
Proof.
  induction b as [|x b IH]; [by destruct c|]. rewrite append_cons. simpl.
  by destruct (ascii_dec x x).
Qed.

Lemma includes_unfold s needle :
  includes s needle
  = String.prefix needle s
    || match s with
       | EmptyString => false
       | String _ rest => includes rest needle
       end.
Proof. by destruct s. Qed.

Lemma includes_cons x s needle :
  includes s needle = true -> includes (String x s) needle = true.
Proof. intros H. rewrite includes_unfold, H. apply orb_true_r. Qed.

Lemma includes_here b c : includes (b +:+ c) b = true.
Proof. rewrite (includes_unfold (b +:+ c) b). by rewrite (prefix_append b c). Qed.

Lemma includes_append a s needle :
  includes s needle = true -> includes (a +:+ s) needle = true.
Proof.
  intros H. induction a as [|x a IH]; [done|].
  rewrite append_cons. by apply includes_cons.
Qed.

(** ** Strings that hold a string *)

Lemma prefix_prepend n s t : String.prefix n s = true -> String.prefix n (s +:+ t) = true.
Proof.
  revert n. induction s as [|b s IH]; intros [|a n] H; try done.
  - by destruct t.
  - rewrite append_cons. simpl in *. destruct (ascii_dec a b); [by apply IH|done].
Qed.

Lemma includes_prepend s t needle :
  includes s needle = true -> includes (s +:+ t) needle = true.
Proof.
  induction s as [|b s IH]; rewrite includes_unfold; intros H.
  - rewrite orb_false_r in H. rewrite includes_unfold.
    by rewrite (prefix_prepend _ EmptyString t H).
  - apply orb_true_iff in H as [H|H].
    + rewrite includes_unfold. by rewrite (prefix_prepend _ _ t H).
    + rewrite append_cons. apply includes_cons. by apply IH.
Qed.

Lemma includes_join row rows needle :
  row ∈ rows -> includes row needle = true -> includes (join rows) needle = true.
Proof.
  intros Hin Hrow. induction rows as [|x rows IH]; [by apply elem_of_nil in Hin|].
  rewrite join_cons. apply elem_of_cons in Hin as [<-|Hin].
  - by apply includes_prepend.
  - apply includes_append. by apply IH.
Qed.

Lemma map_items_elem {A} (f : jsval -> result A) items ys x :
  map_items f items = Ok ys -> x ∈ items -> exists y, f x = Ok y /\ y ∈ ys.
Proof.
  revert ys. induction items as [|i items IH]; intros ys H Hin;
    [by apply elem_of_nil in Hin|].
  simpl in H. destruct (f i) as [y|] eqn:Hy; [|done]. simpl in H.
  destruct (map_items f items) as [ys'|]; [|done]. simpl in H. simplify_eq.
  apply elem_of_cons in Hin as [->|Hin].
  - exists y. split; [done|]. apply elem_of_cons. by left.
  - destruct (IH ys' eq_refl Hin) as (y' & Hy' & Hin'). exists y'. split; [done|].
    apply elem_of_cons. by right.
Qed.

Lemma includes_cell name rest :
  includes ("<td>" +:+ name +:+ "</td>" +:+ rest) ("<td>" +:+ name +:+ "</td>") = true.
Proof.
  replace ("<td>" +:+ name +:+ "</td>" +:+ rest)
    with (("<td>" +:+ name +:+ "</td>") +:+ rest) by (by rewrite !append_assoc).
  apply includes_here.
Qed.

(** ** A successful creation (C6) *)

Lemma includes_step a s t needle :
  includes (s +:+ t) needle = true -> includes (String a s +:+ t) needle = true.
Proof. intros H. rewrite append_cons. by apply includes_cons. Qed.

Lemma includes_cell_here s rest : includes ("<td>" +:+ s +:+ "</td>" +:+ rest) (cell s) = true.
Proof. apply includes_cell. Qed.

Lemma personnel_row_cell p k s row :
  k ∈ shown_fields -> get p k = Ok (VStr s) -> personnel_row p = Ok row ->
  includes row (cell s) = true.
Proof.
  intros Hk Hget Hrow. unfold shown_fields in Hk.
  rewrite !elem_of_cons, elem_of_nil in Hk. unfold personnel_row in Hrow.
  destruct Hk as [->|[->|[->|[]]]]; rewrite Hget in Hrow;
    repeat match type of Hrow with
           | context [get ?x ?f] => destruct (get x f); [|done]
           end;
    cbn [rbind] in Hrow; injection Hrow as <-; cbn [to_string];
    repeat first [ exact (includes_cell_here _ _)
                 | apply includes_step
                 | apply includes_append ].
Qed.

(** Every person of a collection has the cells of its shown fields in
    the table rendered from the collection. *)
Lemma personnel_table_cells items rows p k s :
  map_items personnel_row items = Ok rows ->
  p ∈ items -> k ∈ shown_fields -> get p k = Ok (VStr s) ->
  includes (personnel_table (join rows)) (cell s) = true.
Proof.
  intros Hrows Hin Hk Hget.
  destruct (map_items_elem _ _ _ _ Hrows Hin) as (row & Hrow & Hinr).
  unfold personnel_table.
  repeat first
    [ apply includes_prepend, (includes_join row); [exact Hinr|];
      exact (personnel_row_cell p k s row Hk Hget Hrow)
    | apply includes_append ].
Qed.

Section Creation.
Variables (w : World) (form table : element) (r : response).
Variables (created : jsval) (items : list jsval).
Hypothesis has_form : document w !! "personnel-form" = Some form.
Hypothesis has_table : document w !! "personnel-table" = Some table.
Hypothesis answered :
  network w (requests w)
    (build_request (token (state w)) "/api/personnel" (post form)) = Responded r.
Hypothesis is_ok : ok r = true.
Hypothesis is_json :
  includes (default EmptyString (contentType r)) "application/json" = true.
Hypothesis parsed : json r = Ok created.
Hypothesis cache : personnel (state w) = VArr items.
Hypothesis no_null : Forall (fun x => nullish x = false) (items ++ [created]).
Hypothesis duties : records (dutyTypes (state w)).
Hypothesis gear : records (equipment (state w)).
Hypothesis ready : selects_ready (document w).

(** What the handler does when nothing throws. *)
Lemma personnel_submit_run :
  exists rows row d',
    map_items personnel_row items = Ok rows
    /\ personnel_row created = Ok row
    /\ d' !! "personnel-form" = Some form
    /\ personnel_submit w
       = (Ok tt,
          set_document
            (<["personnel-form" := reset form]>
               (<["personnel-table" :=
                    set_innerHTML (personnel_table (join rows +:+ row)) table]> d'))
            (set_state (set_personnel (VArr (items ++ [created])) (state w))
               (set_requests
                  (requests w
                   ++ [build_request (token (state w)) "/api/personnel" (post form)]) w))).
Proof using All.
  pose proof no_null as Hnn.
  apply Forall_app in Hnn as [Hitems Hcreated].
  apply Forall_cons in Hcreated as [Hcreated _].
  destruct (map_items_ok personnel_row items) as [rows Hrows].
  { eapply Forall_impl; [exact Hitems|]. intros x Hx. by apply personnel_row_ok. }
  destruct (personnel_row_ok created Hcreated) as [row Hrow].
  set (req := build_request (token (state w)) "/api/personnel" (post form)) in *.
  set (w1 := set_requests (requests w ++ [req]) w).
  set (w2 := set_state (set_personnel (VArr (items ++ [created])) (state w1)) w1).
  destruct (populateSelects_ok w2) as (d' & Hsel & Hd'); try done.
  { exists (items ++ [created]). by split. }
  pose proof (Hd' "personnel-table") as Ht. simpl in Ht. rewrite has_table in Ht.
  destruct Ht as (table' & Ht & _ & Htable). rewrite Htable in Ht by compute_done.
  pose proof (Hd' "personnel-form") as Hf. simpl in Hf. rewrite has_form in Hf.
  destruct Hf as (form' & Hf & _ & Hform). rewrite Hform in Hf by compute_done.
  exists rows, row, d'. split; [done|]. split; [done|]. split; [done|].
  unfold personnel_submit, listener. rewrite has_form. unfold try_catch.
  erewrite bind_ok.
  2:{ rewrite apiFetch_run. cbv zeta. fold req. rewrite answered.
      unfold read_response. rewrite is_json, parsed, is_ok. reflexivity. }
  fold w1. erewrite bind_ok.
  2:{ unfold push_personnel. erewrite bind_ok by apply gets_run.
      simpl. rewrite cache. reflexivity. }
  fold w2. erewrite bind_ok by exact Hsel.
  erewrite bind_ok by apply gets_run. simpl personnel.
  erewrite bind_ok.
  2:{ unfold renderPersonnel, map_join. simpl array_items. cbn [rbind].
      rewrite (map_items_app _ _ _ rows [row] Hrows) by (simpl; by rewrite Hrow).
      cbn [rbind]. rewrite join_app. apply render_into_run. exact Ht. }
  unfold on_element. simpl. rewrite lookup_insert_ne, Hf by done.
  replace (join [row]) with row by (unfold join; simpl; done).
  reflexivity.
Qed.

End Creation.



Example personnel_submit_demo :
  rendered "personnel-table" (personnel_submit (demo_world creating))
  = Some (personnel_table "
        <tr>
          <td>A</td>
          <td>pilot</td>
          <td></td>
          <td>1</td>
        </tr>
      ")
  /\ List.map (fun q => (method q, path q)) (requests (snd (personnel_submit (demo_world creating))))
     = [("POST", "/api/personnel")].
Proof. split; vm_compute; reflexivity. Qed.

(** ** Status colours (C8) *)

Lemma toLowerCase_pair a b rest :
  toLowerCase (String a (String b rest)) =
  let n := nat_of_ascii a in
  let m := nat_of_ascii b in
  (if is_upper_ascii a then String (byte (n + 32)) (toLowerCase (String b rest))
   else if (n =? 208) && (128 <=? m) && (m <=? 143)
   then String (byte 209) (String (byte (m + 16)) (toLowerCase rest))
   else if (n =? 208) && (144 <=? m) && (m <=? 159)
   then String (byte 208) (String (byte (m + 32)) (toLowerCase rest))
   else if (n =? 208) && (160 <=? m) && (m <=? 175)
   then String (byte 209) (String (byte (m - 32)) (toLowerCase rest))
   else String a (toLowerCase (String b rest)))%nat.
Proof. reflexivity. Qed.

Lemma includes_two p q rest :
  includes (String p (String q rest)) (String p (String q EmptyString)) = true.
Proof.
  rewrite includes_unfold. simpl.
  destruct (ascii_dec p p); [|done]. destruct (ascii_dec q q); [|done].
  by destruct rest.
Qed.

Lemma includes_two_inv p q s :
  includes s (String p (String q EmptyString)) = true ->
  match s with
  | String a (String b rest) =>
      (a = p /\ b = q) \/ includes (String b rest) (String p (String q EmptyString)) = true
  | _ => False
  end.
Proof.
  destruct s as [|a [|b rest]].
  - done.
  - simpl. by destruct (ascii_dec p a).
  - rewrite includes_unfold. intros [H|H]%orb_true_iff; [left|by right].
    simpl in H. destruct (ascii_dec p a); [|done]. by destruct (ascii_dec q b).
Qed.

(** Lower-casing keeps an occurrence of a two-byte letter [p q] whose
    lower-case form is [p' q']. *)
Section Letters.
Variables p q p' q' : ascii.
Hypothesis lead : nat_of_ascii p = 208 \/ nat_of_ascii p = 209.
Hypothesis lowered : forall rest,
  exists rest', toLowerCase (String p (String q rest)) = String p' (String q' rest').

Lemma toLowerCase_keeps_letter n s :
  String.length s <= n ->
  includes s (String p (String q EmptyString)) = true ->
  includes (toLowerCase s) (String p' (String q' EmptyString)) = true.
Proof using lead lowered.
  revert s. induction n as [|n IH]; intros s Hlen H; apply includes_two_inv in H.
  { destruct s as [|a [|b rest]]; [done..|simpl in Hlen; lia]. }
  destruct s as [|a [|b rest]]; [done..|].
  destruct H as [[-> ->]|H].
  { destruct (lowered rest) as [rest' ->]. apply includes_two. }
  assert (includes (toLowerCase (String b rest)) (String p' (String q' EmptyString)) = true)
    as Hrest by (apply IH; [simpl in *; lia|done]).
  rewrite toLowerCase_pair. cbv zeta.
  destruct (is_upper_ascii a); [by apply includes_cons|].
  assert (forall lo hi,
            ((nat_of_ascii a =? 208) && (lo <=? nat_of_ascii b) && (nat_of_ascii b <=? hi)
             = true)%nat ->
            (hi < 208)%nat ->
            includes (toLowerCase rest) (String p' (String q' EmptyString)) = true) as Hpair.
  { intros lo hi Ht Hhi. apply andb_true_iff in Ht as [_ Hb%Nat.leb_le].
    apply includes_two_inv in H. destruct rest as [|c rest]; [done|].
    destruct H as [[-> _]|H]; [lia|].
    apply IH; [simpl in *; lia|done]. }
  repeat match goal with
         | |- context [if ?t then _ else _] =>
             destruct t eqn:?;
               [do 2 apply includes_cons; eapply Hpair; [eassumption|lia]|]
         end.
  by apply includes_cons.
Qed.
End Letters.

Lemma lower_keeps_ve s :
  includes s "в" = true \/ includes s "В" = true -> includes (toLowerCase s) "в" = true.
Proof.
  intros [H|H];
    refine (toLowerCase_keeps_letter _ _ _ _ _ _ (String.length s) s (Nat.le_refl _) H);
    try (left; reflexivity);
    intros [|c rest]; eexists; reflexivity.
Qed.

Lemma lower_keeps_er s :
  includes s "р" = true \/ includes s "Р" = true -> includes (toLowerCase s) "р" = true.
Proof.
  intros [H|H];
    refine (toLowerCase_keeps_letter _ _ _ _ _ _ (String.length s) s (Nat.le_refl _) H);
    try (left; reflexivity); try (right; reflexivity);
    intros [|c rest]; eexists; reflexivity.
Qed.

Lemma includes_nonempty s needle :
  includes s needle = true -> needle <> EmptyString -> s <> EmptyString.
Proof. intros H Hn ->. by destruct needle. Qed.

(** C8, as amended: a non-empty status text gets one of three colours,
    chosen by the letters of its lower-case form: green when it holds
    the letter ve, else orange when it holds the letter er, else the
    default blue.  A text in which ve occurs (in either case) is green.
    The empty text gets a fourth colour, grey. *)
Theorem statusColor_palette (s : string) :
  (s = EmptyString -> statusColor (VStr s) = Ok "#95a5a6")
  /\ (s <> EmptyString ->
      statusColor (VStr s)
      = Ok (if includes (toLowerCase s) "в" then "#2ecc71"
            else if includes (toLowerCase s) "р" then "#e67e22"
            else "#1f3c88"))
  /\ (includes s "в" = true \/ includes s "В" = true ->
      statusColor (VStr s) = Ok "#2ecc71")
  /\ (includes (toLowerCase s) "в" = false ->
      includes s "р" = true \/ includes s "Р" = true ->
      statusColor (VStr s) = Ok "#e67e22").
Proof.
  assert (s <> EmptyString ->
          statusColor (VStr s)
          = Ok (if includes (toLowerCase s) "в" then "#2ecc71"
                else if includes (toLowerCase s) "р" then "#e67e22"
                else "#1f3c88")) as Hcode.
  { intros Hne. unfold statusColor. simpl. apply String.eqb_neq in Hne. rewrite Hne.
    simpl. by repeat destruct (includes _ _). }
  split; [by intros ->|]. split; [done|]. split.
  - intros H. rewrite Hcode, (lower_keeps_ve s H); [done|].
    destruct H as [H|H]; by eapply includes_nonempty.
  - intros Hve H. rewrite Hcode, Hve, (lower_keeps_er s H); [done|].
    destruct H as [H|H]; by eapply includes_nonempty.
Qed.

(** C8, as stated, fails for the empty status text: its colour is none
    of the three. *)
Lemma statusColor_empty_is_grey :
  statusColor (VStr EmptyString) = Ok "#95a5a6"
  /\ statusColor (VStr EmptyString) <> Ok "#2ecc71"
  /\ statusColor (VStr EmptyString) <> Ok "#e67e22"
  /\ statusColor (VStr EmptyString) <> Ok "#1f3c88".
Proof. repeat split; discriminate. Qed.

Example statusColor_demo :
  statusColor (VStr "Відпустка") = Ok "#2ecc71"
  /\ statusColor (VStr "НАРЯД") = Ok "#e67e22"
  /\ statusColor (VStr "Чергування") = Ok "#2ecc71"
  /\ statusColor (VStr "хворий") = Ok "#2ecc71"
  /\ statusColor (VStr "on duty") = Ok "#1f3c88"
  /\ statusColor VNull = Ok "#95a5a6"
  /\ statusColor (VNum 3) = Throw (Error "status.toLowerCase is not a function").
Proof. repeat split; reflexivity. Qed.

(** ** Invalid session at start-up (C1) *)

(** Whatever the server answers, [init] leaves the role and the user
    name where they were, in memory and in localStorage. *)
Lemma init_keeps_role_and_username : keeps session_rest init.
Proof. unfold init. keeps_tac. Qed.

Lemma ignore_failure_run {A} (c : M A) w :
  try_catch (c ;;; ret tt) (fun _ => ret tt) w = (Ok tt, snd (c w)).
Proof. unfold try_catch, bind, ret. by destruct (c w) as [[a|e] w']. Qed.

(** The sibling path: logging out clears the three credentials in both
    places, whatever the server answers. *)
Lemma logout_click_purges_session w btn :
  document w !! "logout-btn" = Some btn ->
  session (snd (logout_click w)) = (VNull, VNull, VNull, None, None, None).
Proof.
  intros Hbtn. unfold logout_click, listener. rewrite Hbtn.
  erewrite bind_ok by apply ignore_failure_run.
  do 6 (erewrite bind_ok by reflexivity).
  assert (keeps session (setAuthenticated ;;; showView "dashboard")) as ->
    by keeps_tac.
  unfold session. simpl. rewrite !lookup_delete.
  by repeat (case_decide; [|done]).
Qed.

(** C1 on a restored session whose token the server rejects: [init]
    drops the token from memory and from localStorage and shows the
    anonymous view, but the role and the user name stay in both. *)
Theorem init_invalid_session_keeps_role :
  let w := demo_world unauthorized in
  let w' := snd (init w) in
  session w = (VStr "t0", VStr "admin", VStr "olena", Some "t0", Some "admin", Some "olena")
  /\ fst (loadBaseData w) = Throw (Error "Недійсний токен")
  /\ fst (init w) = Ok tt
  /\ visible <$> document w' !! "auth-section" = Some true
  /\ visible <$> document w' !! "app" = Some false
  /\ textContent <$> document w' !! "user-info" = Some EmptyString
  /\ session w' = (VNull, VStr "admin", VStr "olena", None, Some "admin", Some "olena").
Proof. repeat split; vm_compute; reflexivity. Qed.

Example logout_demo :
  session (snd (logout_click (demo_world unauthorized)))
  = (VNull, VNull, VNull, None, None, None).
Proof. vm_compute. reflexivity. Qed.

(** * Further properties of the script *)

(** ** API client: one attempt, one toast *)

(** X1: whatever the server answers, a call of [apiFetch] hands exactly one
    request to [fetch]: the path and the options of the call, the JSON
    content type, and the bearer token exactly when one is held. *)
Theorem apiFetch_single_attempt (p : string) (o : options) (w : World) :
  exists req,
    requests (snd (apiFetch p o w)) = requests w ++ [req]
    /\ path req = p
    /\ method req = default "GET" (opt_method o)
    /\ body req = opt_body o
    /\ headers req
       = if truthy (token (state w))
         then [("Content-Type", "application/json");
               ("Authorization", "Bearer " +:+ to_string (token (state w)))]
         else [("Content-Type", "application/json")].
Proof.
  eexists. split; [apply apiFetch_requests|]. simpl. unfold request_headers.
  by destruct (truthy _).
Qed.

Lemma toast_text_not_empty e : toast_text e <> EmptyString.
Proof.
  unfold toast_text. destruct (String.eqb (message e) EmptyString) eqn:E; [done|].
  by apply String.eqb_neq.
Qed.

(** X2: a call that returns shows no toast; a call that fails shows exactly
    one, whose text is never empty, throws the error it caught, and
    changes nothing else than the toasts and the request log. *)
Theorem apiFetch_toast_discipline (p : string) (o : options) (w : World) :
  match fst (apiFetch p o w) with
  | Ok _ => toasts (snd (apiFetch p o w)) = toasts w
  | Throw e =>
      exists t, toasts (snd (apiFetch p o w)) = toasts w ++ [t]
                /\ t <> EmptyString
                /\ (message e <> EmptyString -> t = message e)
                /\ (message e = EmptyString -> t = "Помилка мережі")
  end
  /\ state (snd (apiFetch p o w)) = state w
  /\ document (snd (apiFetch p o w)) = document w
  /\ localStorage (snd (apiFetch p o w)) = localStorage w
  /\ console (snd (apiFetch p o w)) = console w.
Proof.
  rewrite apiFetch_run. cbv zeta.
  destruct (read_response _) as [v|e]; simpl; [done|].
  repeat split; try done. exists (toast_text e).
  split; [done|]. split; [apply toast_text_not_empty|]. unfold toast_text. split.
  - intros H. apply String.eqb_neq in H. by rewrite H.
  - intros ->. done.
Qed.

Section PlainText.
Variables (w : World) (p : string) (o : options) (r : response) (t : string).
Hypothesis answered :
  network w (requests w) (build_request (token (state w)) p o) = Responded r.
Hypothesis not_json :
  includes (default EmptyString (contentType r)) "application/json" = false.
Hypothesis read : text r = Ok t.

(** X3: an answer that does not declare JSON is read as text: with a 2xx
    status the call returns the text as a string; with any other status
    the body is ignored and the failure carries the status text. *)
Theorem apiFetch_plain_text :
  fst (apiFetch p o w)
  = if ok r then Ok (VStr t) else Throw (Error (statusText r)).
Proof using answered not_json read.
  rewrite apiFetch_run. cbv zeta. rewrite answered. unfold read_response.
  rewrite not_json, read. cbn [rbind]. by destruct (ok r).
Qed.
End PlainText.

Lemma apiFetch_plain_text_witness :
  fst (apiFetch "/api/dashboard" no_options (demo_world (html_page false "Bad Gateway")))
  = Throw (Error "Bad Gateway").
Proof.
  apply (apiFetch_plain_text (demo_world (html_page false "Bad Gateway")) "/api/dashboard"
           no_options
           (Response false "Bad Gateway" (Some "text/html") (Ok "<h1>Bad Gateway</h1>")
              (Throw (Error "Unexpected token <")))
           "<h1>Bad Gateway</h1>"); reflexivity.
Defined.

(** ** Session view *)

Lemma on_element_run id prop f e w :
  document w !! id = Some e ->
  on_element id prop f w = (Ok tt, set_document (<[id := f e]> (document w)) w).
Proof. intros H. unfold on_element. by rewrite H. Qed.

Lemma assign_element_run id prop f e w :
  document w !! id = Some e ->
  assign_element id prop f w = (Ok tt, set_document (<[id := f e]> (document w)) w).
Proof. intros H. unfold assign_element. by rewrite H. Qed.

Lemma setAuthenticated_run w a b u :
  document w !! "auth-section" = Some a ->
  document w !! "app" = Some b ->
  document w !! "user-info" = Some u ->
  setAuthenticated w
  = (Ok tt,
     set_document
       (<["user-info" :=
            set_textContent
              (if truthy (token (state w))
               then to_string (username (state w)) +:+ " ("
                    +:+ to_string (role (state w)) +:+ ")"
               else EmptyString) u]>
          (<["app" := (if truthy (token (state w))
                       then classList_remove "hidden" b
                       else classList_add "hidden" b)]>
             (<["auth-section" := (if truthy (token (state w))
                                   then classList_add "hidden" a
                                   else classList_remove "hidden" a)]>
                (document w)))) w).
Proof.
  intros Ha Hb Hu. unfold setAuthenticated.
  erewrite bind_ok by apply gets_run.
  destruct (truthy (token (state w)));
    (erewrite bind_ok by (apply on_element_run; exact Ha));
    (erewrite bind_ok
       by (apply on_element_run; simpl; rewrite lookup_insert_ne by done; exact Hb));
    (erewrite assign_element_run
       by (simpl; rewrite !lookup_insert_ne by done; exact Hu));
    reflexivity.
Qed.

Lemma setAuthenticated_view w a b u :
  document w !! "auth-section" = Some a ->
  document w !! "app" = Some b ->
  document w !! "user-info" = Some u ->
  session_view (snd (setAuthenticated w))
  = (Some (negb (truthy (token (state w)))),
     Some (truthy (token (state w))),
     Some (if truthy (token (state w))
           then to_string (username (state w)) +:+ " (" +:+ to_string (role (state w))
                +:+ ")"
           else EmptyString)).
Proof.
  intros Ha Hb Hu. rewrite (setAuthenticated_run w a b u) by done.
  unfold session_view. simpl.
  rewrite lookup_insert_eq.
  rewrite (lookup_insert_ne _ "user-info" "app"), lookup_insert_eq by done.
  rewrite (lookup_insert_ne _ "user-info" "auth-section") by done.
  rewrite (lookup_insert_ne _ "app" "auth-section"), lookup_insert_eq by done.
  simpl. unfold visible.
  destruct (truthy (token (state w))); by rewrite ?contains_add, ?contains_remove.
Qed.

(** X4: on a page that holds the two sections and the user badge,
    [setAuthenticated] shows the application exactly when a token is
    held and the login section exactly when none is; the badge reads
    [username (role)] with a token and is empty without. *)
Theorem setAuthenticated_shows_one_section (w : World) (a b u : element) :
  document w !! "auth-section" = Some a ->
  document w !! "app" = Some b ->
  document w !! "user-info" = Some u ->
  fst (setAuthenticated w) = Ok tt
  /\ session_view (snd (setAuthenticated w))
     = (Some (negb (truthy (token (state w)))),
        Some (truthy (token (state w))),
        Some (if truthy (token (state w))
              then to_string (username (state w)) +:+ " (" +:+ to_string (role (state w))
                   +:+ ")"
              else EmptyString)).
Proof.
  intros Ha Hb Hu. split; [by rewrite (setAuthenticated_run w a b u)|].
  by apply (setAuthenticated_view w a b u).
Qed.

Lemma setAuthenticated_shows_one_section_witness :
  fst (setAuthenticated (demo_world unauthorized)) = Ok tt
  /\ session_view (snd (setAuthenticated (demo_world unauthorized)))
     = (Some false, Some true, Some "olena (admin)").
Proof.
  apply (setAuthenticated_shows_one_section (demo_world unauthorized)
           plain (set_classList ["hidden"] plain) plain); reflexivity.
Defined.

(** ** Logging out *)

Lemma textContent_hide_panel e : textContent (hide_panel e) = textContent e.
Proof.
  unfold hide_panel, classList_add.
  destruct (is_panel e); [|done]. by destruct (contains "hidden" e).
Qed.

(** X5: the click on the logout button makes one request, the POST to the
    logout endpoint, still carrying the token of the session that ends;
    whether the server accepts it or not, the handler then clears the
    token, the role and the user name in memory and in localStorage,
    hides the application and empties the user badge.  The login section
    is shown, unless it is itself a view panel: then [showView] hides it
    again. *)
Theorem logout_click_ends_in_anonymous_view (w : World) (btn a b u : element) :
  document w !! "logout-btn" = Some btn ->
  document w !! "auth-section" = Some a ->
  document w !! "app" = Some b ->
  document w !! "user-info" = Some u ->
  fst (logout_click w) = Ok tt
  /\ requests (snd (logout_click w))
     = requests w ++ [Request "POST" "/api/auth/logout"
                              (request_headers (token (state w))) None]
  /\ session (snd (logout_click w)) = (VNull, VNull, VNull, None, None, None)
  /\ session_view (snd (logout_click w))
     = (Some (negb (is_panel a)), Some false, Some EmptyString).
Proof.
  intros Hbtn Ha Hb Hu.
  pose proof (logout_click_purges_session w btn Hbtn) as Hsession. revert Hsession.
  pose proof (apiFetch_keeps_page "/api/auth/logout" (Options (Some "POST") None) w) as Hpage.
  pose proof (apiFetch_requests "/api/auth/logout" (Options (Some "POST") None) w) as Hreq.
  simpl in Hpage. injection Hpage as _ Hdoc.
  unfold logout_click, listener. rewrite Hbtn.
  erewrite bind_ok by apply ignore_failure_run.
  set (w1 := snd (apiFetch _ _ w)) in *.
  do 6 (erewrite bind_ok by reflexivity).
  erewrite bind_ok
    by (apply (setAuthenticated_run _ a b u); simpl; by rewrite Hdoc).
  rewrite showView_run. simpl. intros Hsession.
  split; [done|]. split; [exact Hreq|]. split; [exact Hsession|].
  unfold session_view. simpl.
  rewrite !lookup_alter_ne, !lookup_fmap by done.
  rewrite lookup_insert_eq.
  rewrite (lookup_insert_ne _ "user-info" "app"), lookup_insert_eq by done.
  rewrite (lookup_insert_ne _ "user-info" "auth-section") by done.
  rewrite (lookup_insert_ne _ "app" "auth-section"), lookup_insert_eq by done.
  simpl. f_equal; [f_equal|].
  - unfold hide_panel.
    assert (is_panel (classList_remove "hidden" a) = is_panel a) as ->.
    { unfold is_panel. by rewrite contains_remove_ne. }
    unfold visible. destruct (is_panel a).
    + by rewrite contains_add.
    + by rewrite contains_remove.
  - unfold hide_panel, visible.
    by destruct (is_panel (classList_add "hidden" b)); rewrite contains_add.
  - by rewrite textContent_hide_panel.
Qed.

Lemma logout_click_ends_in_anonymous_view_witness :
  let w := snd (setAuthenticated (demo_world unauthorized)) in
  fst (logout_click w) = Ok tt
  /\ requests (snd (logout_click w))
     = requests w ++ [Request "POST" "/api/auth/logout"
                              (request_headers (token (state w))) None]
  /\ session (snd (logout_click w)) = (VNull, VNull, VNull, None, None, None)
  /\ session_view (snd (logout_click w)) = (Some true, Some false, Some EmptyString).
Proof.
  apply (logout_click_ends_in_anonymous_view (snd (setAuthenticated (demo_world unauthorized)))
           plain (set_classList ["hidden"] plain) plain (set_textContent "olena (admin)" plain));
    reflexivity.
Defined.

(** ** Start-up without a session *)

(** X6: with no token held, [init] makes no request and touches neither the
    session object nor localStorage; it only shows the login section. *)
Theorem init_without_token_is_local (w : World) (a b u : element) :
  truthy (token (state w)) = false ->
  document w !! "auth-section" = Some a ->
  document w !! "app" = Some b ->
  document w !! "user-info" = Some u ->
  fst (init w) = Ok tt
  /\ requests (snd (init w)) = requests w
  /\ toasts (snd (init w)) = toasts w
  /\ state (snd (init w)) = state w
  /\ localStorage (snd (init w)) = localStorage w
  /\ session_view (snd (init w)) = (Some true, Some false, Some EmptyString).
Proof.
  intros Htok Ha Hb Hu.
  assert (init w = setAuthenticated w) as ->.
  { unfold init. erewrite bind_ok by apply gets_run. by rewrite Htok. }
  pose proof (setAuthenticated_view w a b u Ha Hb Hu) as Hview.
  rewrite Htok in Hview. rewrite (setAuthenticated_run w a b u) in * by done.
  done.
Qed.

Lemma init_without_token_is_local_witness :
  let w := fresh_world unauthorized in
  fst (init w) = Ok tt
  /\ requests (snd (init w)) = requests w
  /\ toasts (snd (init w)) = toasts w
  /\ state (snd (init w)) = state w
  /\ localStorage (snd (init w)) = localStorage w
  /\ session_view (snd (init w)) = (Some true, Some false, Some EmptyString).
Proof.
  apply (init_without_token_is_local (fresh_world unauthorized)
           plain (set_classList ["hidden"] plain) plain); reflexivity.
Defined.

(** ** Logging in *)

Lemma apiFetch_ok p o w r payload :
  network w (requests w) (build_request (token (state w)) p o) = Responded r ->
  ok r = true ->
  includes (default EmptyString (contentType r)) "application/json" = true ->
  json r = Ok payload ->
  apiFetch p o w
  = (Ok payload, set_requests (requests w ++ [build_request (token (state w)) p o]) w).
Proof.
  intros Ha Hok Hj Hp. rewrite apiFetch_run. cbv zeta. rewrite Ha.
  unfold read_response. by rewrite Hj, Hp, Hok.
Qed.

Lemma apiFetch_failed p o w :
  failed (network w (requests w) (build_request (token (state w)) p o)) ->
  exists e,
    apiFetch p o w
    = (Throw e, set_toasts (toasts w ++ [toast_text e])
                  (set_requests (requests w ++ [build_request (token (state w)) p o]) w)).
Proof.
  intros [e He]%read_response_failed. exists e. rewrite apiFetch_run. cbv zeta.
  by rewrite He.
Qed.

Lemma after_login_keeps_session :
  keeps session (setAuthenticated ;;; toggleFormsByRole ;;; loadBaseData ;;;
                 loadDashboard ;;; showView "dashboard").
Proof. keeps_tac. Qed.

Section Login.
Variables (w : World) (form : element) (r : response).
Variables (answer tok rol usr : jsval).
Hypothesis has_form : document w !! "login-form" = Some form.
Hypothesis answered :
  network w (requests w)
    (build_request (token (state w)) "/api/auth/login" (post form)) = Responded r.
Hypothesis is_ok : ok r = true.
Hypothesis is_json :
  includes (default EmptyString (contentType r)) "application/json" = true.
Hypothesis parsed : json r = Ok answer.
Hypothesis has_token : get answer "token" = Ok tok.
Hypothesis has_role : get answer "role" = Ok rol.
Hypothesis has_username : get answer "username" = Ok usr.

End Login.


(** X9: a login the server refuses (or that never reaches it) changes
    neither the session object nor localStorage nor the page: the error
    is shown in a toast and logged, and the handler returns. *)
Theorem login_submit_failure_changes_nothing (w : World) (form : element) :
  document w !! "login-form" = Some form ->
  failed (network w (requests w)
            (build_request (token (state w)) "/api/auth/login" (post form))) ->
  let w' := snd (login_submit w) in
  fst (login_submit w) = Ok tt
  /\ state w' = state w
  /\ localStorage w' = localStorage w
  /\ document w' = document w
  /\ exists e, console w' = console w ++ [e] /\ toasts w' = toasts w ++ [toast_text e].
Proof.
  intros Hform Hfail w'. destruct (apiFetch_failed _ _ _ Hfail) as [e He].
  subst w'. unfold login_submit, listener. rewrite Hform. unfold try_catch.
  erewrite bind_throw by exact He. simpl. eauto 10.
Qed.

Lemma login_submit_failure_witness :
  let w := fresh_world unauthorized in
  let w' := snd (login_submit w) in
  fst (login_submit w) = Ok tt
  /\ state w' = state w
  /\ localStorage w' = localStorage w
  /\ document w' = document w
  /\ exists e, console w' = console w ++ [e] /\ toasts w' = toasts w ++ [toast_text e].
Proof.
  apply (login_submit_failure_changes_nothing (fresh_world unauthorized)
           (form [("username", field "olena"); ("password", field "s3cret")]));
    vm_compute; reflexivity.
Defined.

(** ** Base data *)

Lemma settle_run {A} (c : M A) w : settle c w = (Ok (fst (c w)), snd (c w)).
Proof. unfold settle. by destruct (c w). Qed.

Lemma apiFetch_fst p o w :
  fst (apiFetch p o w)
  = read_response (network w (requests w) (build_request (token (state w)) p o)).
Proof. rewrite apiFetch_run. cbv zeta. by destruct (read_response _). Qed.

Lemma apiFetch_state p o w : state (snd (apiFetch p o w)) = state w.
Proof. pose proof (apiFetch_keeps_page p o w) as H. simpl in H. congruence. Qed.

Lemma apiFetch_document p o w : document (snd (apiFetch p o w)) = document w.
Proof. pose proof (apiFetch_keeps_page p o w) as H. simpl in H. congruence. Qed.

Lemma apiFetch_localStorage p o w : localStorage (snd (apiFetch p o w)) = localStorage w.
Proof. assert (keeps localStorage (apiFetch p o)) as H by keeps_tac. apply H. Qed.

Lemma loadBaseData_requests w :
  requests (snd (loadBaseData w)) = requests w ++ base_requests (token (state w)).
Proof.
  unfold loadBaseData.
  do 3 (erewrite bind_ok by apply settle_run).
  match goal with
  | |- requests (snd (?c ?w3)) = _ =>
      assert (keeps requests c) as -> by keeps_tac
  end.
  rewrite !apiFetch_requests, !apiFetch_state. unfold base_requests.
  by rewrite <- !app_assoc.
Qed.

(** X10: [loadBaseData] always issues its three reads, in the same order and
    with the same headers, also when an earlier one fails; it makes no
    other request. *)
Theorem loadBaseData_three_requests (w : World) :
  requests (snd (loadBaseData w)) = requests w ++ base_requests (token (state w)).
Proof.
  apply loadBaseData_requests.
Qed.

Lemma network_apiFetch p o w : network (snd (apiFetch p o w)) = network w.
Proof. rewrite apiFetch_run. cbv zeta. by destruct (read_response _). Qed.

Lemma loadBaseData_failure w :
  Exists failed (base_answers w) ->
  (exists e, fst (loadBaseData w) = Throw e)
  /\ state (snd (loadBaseData w)) = state w
  /\ document (snd (loadBaseData w)) = document w
  /\ localStorage (snd (loadBaseData w)) = localStorage w.
Proof.
  intros Hfail. unfold loadBaseData.
  do 3 (erewrite bind_ok by apply settle_run).
  set (w1 := snd (apiFetch "/api/personnel" no_options w)).
  set (w2 := snd (apiFetch "/api/duty-types" no_options w1)).
  set (w3 := snd (apiFetch "/api/equipment" no_options w2)).
  assert (state w3 = state w /\ document w3 = document w
          /\ localStorage w3 = localStorage w) as (Hs & Hd & Hl).
  { subst w1 w2 w3. rewrite !apiFetch_state, !apiFetch_document.
    by rewrite !apiFetch_localStorage. }
  rewrite !apiFetch_fst.
  assert (exists e,
            (personnel <-? read_response (network w (requests w)
                            (build_request (token (state w)) "/api/personnel" no_options)) ;;
             dutyTypes <-? read_response (network w1 (requests w1)
                            (build_request (token (state w1)) "/api/duty-types" no_options)) ;;
             equipment <-? read_response (network w2 (requests w2)
                            (build_request (token (state w2)) "/api/equipment" no_options)) ;;
             Ok tt) = Throw e) as [e He].
  { subst w1 w2. rewrite !network_apiFetch, !apiFetch_requests, !apiFetch_state.
    rewrite <- !app_assoc. simpl app.
    unfold base_answers in Hfail. cbv zeta in Hfail.
    repeat (apply Exists_cons in Hfail as [Hfail|Hfail]);
      [| | |by apply Exists_nil in Hfail];
      apply read_response_failed in Hfail as [e He]; rewrite He;
      repeat (destruct (read_response _); cbn [rbind]; eauto). }
  unfold bind at 1, lift at 1.
  destruct (read_response (network w _ _)) as [v1|e1]; [|simpl in *; eauto].
  unfold bind at 1, lift at 1.
  destruct (read_response (network w1 _ _)) as [v2|e2]; [|simpl in *; eauto].
  unfold bind at 1, lift at 1.
  destruct (read_response (network w2 _ _)) as [v3|e3]; [|simpl in *; eauto].
  done.
Qed.

(** X11: when any of the three base reads fails, [loadBaseData] throws and
    keeps the cached collections and the whole page as they were: the
    caches are replaced together or not at all. *)
Theorem loadBaseData_failure_keeps_caches (w : World) :
  Exists failed (base_answers w) ->
  (exists e, fst (loadBaseData w) = Throw e)
  /\ state (snd (loadBaseData w)) = state w
  /\ document (snd (loadBaseData w)) = document w
  /\ localStorage (snd (loadBaseData w)) = localStorage w.
Proof.
  apply loadBaseData_failure.
Qed.

Lemma loadBaseData_failure_keeps_caches_witness :
  let w := demo_world unauthorized in
  (exists e, fst (loadBaseData w) = Throw e)
  /\ state (snd (loadBaseData w)) = state w
  /\ document (snd (loadBaseData w)) = document w
  /\ localStorage (snd (loadBaseData w)) = localStorage w.
Proof.
  apply (loadBaseData_failure_keeps_caches (demo_world unauthorized)).
  apply Exists_cons_hd. reflexivity.
Defined.

(** ** Loaders: the month and the day *)

Lemma value_or_today_run id n inp w :
  document w !! id = Some inp ->
  exists d,
    value_or_today id n w = (Ok (chosen n inp w), set_document d w)
    /\ (value <$> d !! id) = Some (chosen n inp w)
    /\ forall k, k <> id -> d !! k = document w !! k.
Proof.
  intros H. unfold value_or_today, chosen.
  erewrite bind_ok by (unfold read_value; rewrite H; reflexivity).
  destruct (String.eqb (value inp) EmptyString) eqn:E.
  - erewrite bind_ok by apply gets_run.
    erewrite bind_ok by (apply assign_element_run; exact H).
    eexists. split; [reflexivity|]. split.
    + by rewrite lookup_insert_eq.
    + intros k Hk. by rewrite lookup_insert_ne.
  - exists (document w). split; [by destruct w|]. by rewrite H.
Qed.

Lemma render_into_other id k html w :
  id <> k -> document (snd (render_into id html w)) !! k = document w !! k.
Proof.
  intros Hne. unfold render_into. destruct (document w !! id); [|done].
  destruct html; [|done]. simpl. by rewrite lookup_insert_ne.
Qed.

Lemma bind_lookup {A B} (c : M A) (k : A -> M B) (key : string) w :
  (forall a w', document (snd (k a w')) !! key = document w' !! key) ->
  document (snd (bind c k w)) !! key = document (snd (c w)) !! key.
Proof.
  intros Hk. unfold bind. destruct (c w) as [[a|e] w']; simpl; [apply Hk|done].
Qed.

Section DatedLoader.
Variables (load : M unit) (input endpoint table : string) (n : nat).
Variable render : jsval -> M unit.
Hypothesis load_def :
  load = (chosen_value <- value_or_today input n ;;
          data <- apiFetch (endpoint +:+ chosen_value) no_options ;;
          entries <- lift (get data "entries") ;;
          render entries).
Hypothesis render_requests : forall v, keeps requests (render v).
Hypothesis render_input :
  forall v w, document (snd (render v w)) !! input = document w !! input.

Lemma dated_loader (w : World) (inp : element) :
  document w !! input = Some inp ->
  requests (snd (load w))
  = requests w ++ [Request "GET" (endpoint +:+ chosen n inp w)
                           (request_headers (token (state w))) None]
  /\ (value <$> document (snd (load w)) !! input) = Some (chosen n inp w).
Proof using load_def render_requests render_input.
  intros Hinp. destruct (value_or_today_run input n inp w Hinp) as (d & Hrun & Hval & _).
  rewrite load_def. erewrite bind_ok by exact Hrun. split.
  - rewrite bind_requests by (intros; keeps_tac; apply render_requests).
    by rewrite apiFetch_requests.
  - rewrite bind_lookup.
    + by rewrite apiFetch_document.
    + intros data w'. rewrite bind_lookup; [done|]. intros. apply render_input.
Qed.
End DatedLoader.

(** X13: [loadSchedule] asks for the month its input holds, and for the
    current month (the first seven characters of the ISO timestamp) when
    the input is empty; either way it makes that one request, and the
    input holds the month asked for afterwards, whether the read
    succeeds or not. *)
Theorem loadSchedule_month (w : World) (inp : element) :
  document w !! "schedule-month" = Some inp ->
  requests (snd (loadSchedule w))
  = requests w ++ [Request "GET" ("/api/schedule?month=" +:+ chosen 7 inp w)
                           (request_headers (token (state w))) None]
  /\ (value <$> document (snd (loadSchedule w)) !! "schedule-month")
     = Some (chosen 7 inp w).
Proof.
  apply (dated_loader loadSchedule "schedule-month" "/api/schedule?month=" 7 renderSchedule).
  - reflexivity.
  - intros v. apply renderers_keep_requests.
  - intros v w'. by apply render_into_other.
Qed.

Lemma loadSchedule_month_witness :
  requests (snd (loadSchedule empty_month_world))
  = [Request "GET" "/api/schedule?month=2026-03"
             [("Content-Type", "application/json"); ("Authorization", "Bearer t0")] None]
  /\ (value <$> document (snd (loadSchedule empty_month_world)) !! "schedule-month")
     = Some "2026-03".
Proof.
  apply (loadSchedule_month empty_month_world (input EmptyString)). reflexivity.
Defined.

(** X14: [loadPlan] asks for the day its input holds, and for the current
    day (the first ten characters of the ISO timestamp) when the input
    is empty; it makes that one request, and the input holds the day
    asked for afterwards. *)
Theorem loadPlan_date (w : World) (inp : element) :
  document w !! "plan-date" = Some inp ->
  requests (snd (loadPlan w))
  = requests w ++ [Request "GET" ("/api/plan?date=" +:+ chosen 10 inp w)
                           (request_headers (token (state w))) None]
  /\ (value <$> document (snd (loadPlan w)) !! "plan-date") = Some (chosen 10 inp w).
Proof.
  apply (dated_loader loadPlan "plan-date" "/api/plan?date=" 10 renderPlan).
  - reflexivity.
  - intros v. apply renderers_keep_requests.
  - intros v w'. by apply render_into_other.
Qed.

Lemma loadPlan_date_witness :
  requests (snd (loadPlan empty_month_world))
  = [Request "GET" "/api/plan?date=2026-02-14"
             [("Content-Type", "application/json"); ("Authorization", "Bearer t0")] None]
  /\ (value <$> document (snd (loadPlan empty_month_world)) !! "plan-date")
     = Some "2026-02-14".
Proof.
  apply (loadPlan_date empty_month_world (input "2026-02-14")). reflexivity.
Defined.

(** ** Renderers: all or nothing *)

Lemma render_into_cases id html w : renders_into id w (render_into id html w).
Proof.
  unfold render_into, renders_into. destruct (document w !! id) as [c|] eqn:E.
  - destruct html as [h|e]; [right; eauto|eauto].
  - by left.
Qed.

(** X15: each renderer changes nothing but the markup of its own container:
    when the container is missing it returns without looking at the
    data, and when the data makes it throw the previous markup stays. *)
Theorem renderers_all_or_nothing (data : jsval) (w : World) :
  renders_into "personnel-table" w (renderPersonnel data w)
  /\ renders_into "dashboard-content" w (renderDashboard data w)
  /\ renders_into "schedule-table" w (renderSchedule data w)
  /\ renders_into "plan-table" w (renderPlan data w)
  /\ renders_into "vacation-table" w (renderVacations data w)
  /\ renders_into "analytics-content" w (renderAnalytics data w).
Proof. repeat split; apply render_into_cases. Qed.

Example renderDashboard_bad_status_keeps_markup :
  let w := snd (renderDashboard (VObj [("plan", VArr []); ("statuses", VArr []);
                                       ("date", VStr "2026-03-01")])
                  (demo_world creating)) in
  let bad := VObj [("plan", VArr []);
                   ("statuses", VArr [VObj [("person", VObj [("full_name", VStr "A")]);
                                            ("status", VNum 3)]]);
                   ("date", VStr "2026-03-02")] in
  renderDashboard bad w = (Throw (Error "status.toLowerCase is not a function"), w)
  /\ renderDashboard VNull (set_document ∅ w) = (Ok tt, set_document ∅ w).
Proof. split; vm_compute; reflexivity. Qed.

(** ** Loaders: a failed read *)

(** X16: when the read fails, [loadDashboard] and [loadVacations] throw after
    that one request and leave the page as it was: the markup rendered
    before stays in place. *)
Theorem failed_load_keeps_page (w : World) :
  (failed (network w (requests w)
             (build_request (token (state w)) "/api/dashboard" no_options)) ->
   (exists e, fst (loadDashboard w) = Throw e)
   /\ document (snd (loadDashboard w)) = document w)
  /\ (failed (network w (requests w)
                (build_request (token (state w)) "/api/vacations" no_options)) ->
      (exists e, fst (loadVacations w) = Throw e)
      /\ document (snd (loadVacations w)) = document w).
Proof.
  split; intros [e He]%apiFetch_failed;
    [unfold loadDashboard|unfold loadVacations];
    erewrite bind_throw by exact He; simpl; eauto.
Qed.

(** ** The forms that reload their view *)

Lemma reload_submit_failure form endpoint reload w f :
  document w !! form = Some f ->
  failed (network w (requests w) (build_request (token (state w)) endpoint (post f))) ->
  exists e,
    reload_submit form endpoint reload w
    = (Ok tt, set_console (console w ++ [e])
                (set_toasts (toasts w ++ [toast_text e])
                   (set_requests
                      (requests w ++ [build_request (token (state w)) endpoint (post f)]) w))).
Proof.
  intros Hf [e He]%apiFetch_failed. exists e.
  unfold reload_submit, listener. rewrite Hf. unfold try_catch.
  by erewrite bind_throw by exact He.
Qed.

(** X18: when the POST of the schedule, plan or vacation form fails, the
    handler makes no further request: the view is not reloaded, the form
    keeps what was typed, the page and the session object stay as they
    were, and the error goes to a toast and to the console. *)
Theorem reload_submit_failure_changes_nothing
  (handler : M unit) (form endpoint : string) (w : World) (f : element) :
  (handler, form, endpoint) ∈ reloading_forms ->
  document w !! form = Some f ->
  failed (network w (requests w) (build_request (token (state w)) endpoint (post f))) ->
  fst (handler w) = Ok tt
  /\ requests (snd (handler w))
     = requests w ++ [Request "POST" endpoint (request_headers (token (state w)))
                              (Some (fromEntries (form_entries f)))]
  /\ document (snd (handler w)) = document w
  /\ state (snd (handler w)) = state w
  /\ exists e, console (snd (handler w)) = console w ++ [e]
               /\ toasts (snd (handler w)) = toasts w ++ [toast_text e].
Proof.
  intros Hin Hf Hfail. unfold reloading_forms in Hin.
  rewrite !elem_of_cons, elem_of_nil in Hin.
  destruct Hin as [Hin|[Hin|[Hin|[]]]]; injection Hin as -> -> ->;
    [unfold schedule_submit|unfold plan_submit|unfold vacation_submit];
    (edestruct reload_submit_failure as [e ->]; [exact Hf|exact Hfail|]);
    simpl; eauto 10.
Qed.

Lemma reload_submit_failure_witness :
  let w := demo_world unauthorized in
  let f := form [("person_id", field EmptyString); ("duty_type_id", field EmptyString)] in
  fst (schedule_submit w) = Ok tt
  /\ requests (snd (schedule_submit w))
     = requests w ++ [Request "POST" "/api/schedule" (request_headers (token (state w)))
                              (Some (fromEntries (form_entries f)))]
  /\ document (snd (schedule_submit w)) = document w
  /\ state (snd (schedule_submit w)) = state w
  /\ exists e, console (snd (schedule_submit w)) = console w ++ [e]
               /\ toasts (snd (schedule_submit w)) = toasts w ++ [toast_text e].
Proof.
  apply (reload_submit_failure_changes_nothing schedule_submit "schedule-form" "/api/schedule"
           (demo_world unauthorized)
           (form [("person_id", field EmptyString); ("duty_type_id", field EmptyString)])).
  - unfold reloading_forms. left.
  - reflexivity.
  - reflexivity.
Defined.

Section Vacation.
Variables (w : World) (f table : element) (r1 r2 : response).
Variables (created entries : jsval) (html : string).
Hypothesis has_form : document w !! "vacation-form" = Some f.
Hypothesis has_table : document w !! "vacation-table" = Some table.
Hypothesis posted :
  network w (requests w)
    (build_request (token (state w)) "/api/vacations" (post f)) = Responded r1.
Hypothesis post_ok : ok r1 = true.
Hypothesis post_json :
  includes (default EmptyString (contentType r1)) "application/json" = true.
Hypothesis post_parsed : json r1 = Ok created.
Hypothesis reloaded :
  network w (requests w ++ [build_request (token (state w)) "/api/vacations" (post f)])
    (build_request (token (state w)) "/api/vacations" no_options) = Responded r2.
Hypothesis reload_ok : ok r2 = true.
Hypothesis reload_json :
  includes (default EmptyString (contentType r2)) "application/json" = true.
Hypothesis reload_parsed : json r2 = Ok entries.
Hypothesis renders : rows_or_message entries vacation_row vacation_table = Ok html.

(** X19: a vacation the server accepts is followed by a full reload of the
    view: the handler makes the POST and then the read of the
    collection, writes the table rendered from what the read returned,
    and resets the form. *)
Theorem vacation_submit_reloads_view :
  vacation_submit w
  = (Ok tt,
     set_document
       (<["vacation-form" := reset f]>
          (<["vacation-table" := set_innerHTML html table]> (document w)))
       (set_requests
          (requests w ++ [build_request (token (state w)) "/api/vacations" (post f);
                          build_request (token (state w)) "/api/vacations" no_options])
          w)).
Proof using All.
  unfold vacation_submit, reload_submit, listener. rewrite has_form. unfold try_catch.
  erewrite bind_ok by (eapply apiFetch_ok; eassumption).
  erewrite bind_ok.
  2:{ unfold loadVacations.
      erewrite bind_ok by (eapply apiFetch_ok; simpl; eassumption).
      unfold renderVacations. rewrite renders. apply render_into_run. exact has_table. }
  unfold on_element. simpl. rewrite lookup_insert_ne, has_form by done.
  by rewrite <- app_assoc.
Qed.
End Vacation.

Lemma vacation_submit_reloads_view_witness :
  List.map (fun q => (method q, path q)) (requests (snd (vacation_submit vacation_world)))
  = [("POST", "/api/vacations"); ("GET", "/api/vacations")]
  /\ document (snd (vacation_submit vacation_world)) !! "vacation-form"
     = Some (form [("person_id", field EmptyString); ("start_date", field EmptyString)]).
Proof.
  rewrite (vacation_submit_reloads_view vacation_world
             (form [("person_id", Control "7" EmptyString EmptyString);
                    ("start_date", Control "2026-04-01" EmptyString EmptyString)])
             plain
             (Response true "Created" (Some "application/json") (Ok EmptyString)
                (Ok (VObj [])))
             (Response true "OK" (Some "application/json") (Ok EmptyString)
                (Ok (VArr [VObj [("full_name", VStr "A"); ("start_date", VStr "2026-04-01");
                                 ("end_date", VStr "2026-04-10"); ("status", VStr "new")]])))
             (VObj [])
             (VArr [VObj [("full_name", VStr "A"); ("start_date", VStr "2026-04-01");
                          ("end_date", VStr "2026-04-10"); ("status", VStr "new")]])
             (vacation_table "
        <tr>
          <td>A</td>
          <td>2026-04-01</td>
          <td>2026-04-10</td>
          <td>new</td>
        </tr>
      ")
             eq_refl eq_refl eq_refl eq_refl eq_refl eq_refl eq_refl eq_refl eq_refl
             eq_refl eq_refl).
  split; reflexivity.
Defined.

(** ** What the choice lists hold *)

Lemma update_control_find name f cs cs' n :
  update_control name f cs = Some cs' ->
  find_control n cs'
  = if String.eqb n name then f <$> find_control n cs else find_control n cs.
Proof.
  revert cs'. induction cs as [|[m c] cs IH]; intros cs' H; simpl in *; [done|].
  destruct (String.eqb_spec m name) as [->|Hm].
  - simplify_eq. simpl.
    destruct (String.eqb_spec name n) as [->|Hn].
    + by rewrite String.eqb_refl.
    + destruct (String.eqb_spec n name); [congruence|done].
  - destruct (update_control name f cs) as [cs0|]; [|done]. simplify_eq/=.
    rewrite (IH cs0 eq_refl).
    destruct (String.eqb_spec m n) as [->|Hn]; [|done].
    destruct (String.eqb_spec n name); [congruence|done].
Qed.

Lemma has_control_find name e :
  has_control name e = true <-> is_Some (find_control name (controls e)).
Proof.
  unfold has_control. induction (controls e) as [|[m c] cs IH]; simpl.
  - split; [done|]. by intros [? ?].
  - destruct (String.eqb m name); simpl; [|done]. split; eauto.
Qed.

Lemma control_options_set_option name html e n :
  has_control name e = true ->
  control_options n (set_option name html e)
  = if String.eqb n name then Some html else control_options n e.
Proof.
  intros H. unfold set_option, control_options.
  destruct (update_control_has name (set_coptions html) (controls e) H) as (cs & Hcs & _).
  rewrite Hcs. simpl. rewrite (update_control_find _ _ _ _ n Hcs).
  destruct (String.eqb n name) eqn:E; [|done].
  apply String.eqb_eq in E as ->. apply has_control_find in H as [c ->]. done.
Qed.

Lemma has_control_set_option name html e n :
  has_control n (set_option name html e) = has_control n e.
Proof.
  unfold set_option. destruct (update_control _ _ _) as [cs|] eqn:E; [|done].
  destruct (has_control name e) eqn:H.
  - destruct (update_control_has name (set_coptions html) (controls e) H) as (cs' & Hcs & Hn).
    rewrite E in Hcs. simplify_eq. unfold has_control. simpl. apply Hn.
  - exfalso. unfold has_control in H. clear -E H.
    revert cs E. induction (controls e) as [|[m c] l IH]; intros cs E; simpl in *; [done|].
    destruct (String.eqb m name); simpl in *; [done|].
    destruct (update_control name _ l); [|done]. by eapply IH.
Qed.

Lemma alter_set_option_lookup form name html (d : gmap string element) k f :
  alter (set_option name html) form d !! k = Some f ->
  exists e, d !! k = Some e /\ forall n, has_control n f = has_control n e.
Proof.
  destruct (decide (form = k)) as [Heq|Hne].
  - subst form. rewrite lookup_alter_eq. destruct (d !! k) as [e|]; [|done].
    intros ?; simplify_eq/=. exists e. split; [done|]. intros n.
    apply has_control_set_option.
  - rewrite lookup_alter_ne by done. eauto.
Qed.

Lemma ready_alter_set_option form name html (d : gmap string element) :
  selects_ready d -> selects_ready (alter (set_option name html) form d).
Proof.
  intros (H1 & H2 & H3).
  repeat split; intros f Hf;
    destruct (alter_set_option_lookup _ _ _ _ _ _ Hf) as (e & He & Hc);
    [specialize (H1 _ He) as H | specialize (H2 _ He) as H | specialize (H3 _ He) as H];
    (eapply Forall_impl; [exact H|]); intros n Hn; simpl in *; by rewrite Hc.
Qed.

Lemma fills_guarded form name html :
  required form name ->
  fills (if_present form (assign_options form name html))
        (alter (set_option name html) form).
Proof.
  intros Hreq w Hw. split; [|by apply ready_alter_set_option].
  unfold if_present, assign_options. destruct (document w !! form) as [e|] eqn:E.
  - pose proof (Hreq _ _ Hw E) as Hc.
    destruct (update_control_has name (set_coptions html) (controls e) Hc) as (cs & Hcs & _).
    rewrite Hcs. do 2 f_equal. apply map_eq. intros k.
    destruct (decide (form = k)) as [Heq|Hne].
    + subst k. rewrite lookup_insert_eq, lookup_alter_eq, E. simpl. unfold set_option.
      by rewrite Hcs.
    + by rewrite lookup_insert_ne, lookup_alter_ne.
  - f_equal. destruct w; unfold set_document; simpl in *. f_equal.
    apply map_eq. intros k. destruct (decide (form = k)) as [Heq|Hne].
    + subst k. by rewrite lookup_alter_eq, E.
    + by rewrite lookup_alter_ne.
Qed.

Lemma fills_bind c1 c2 g1 g2 :
  fills c1 g1 -> fills c2 g2 -> fills (c1 ;;; c2) (fun d => g2 (g1 d)).
Proof.
  intros H1 H2 w Hw. destruct (H1 w Hw) as [E1 R1].
  destruct (H2 (set_document (g1 (document w)) w) R1) as [E2 R2].
  erewrite bind_ok by exact E1. by rewrite E2.
Qed.

Lemma fills_lift {A} (r : result A) (k : A -> M unit) a g :
  r = Ok a -> fills (k a) g -> fills (bind (lift r) k) g.
Proof. intros -> H w Hw. apply H, Hw. Qed.

Lemma fills_ext c c' g : (forall w, c w = c' w) -> fills c' g -> fills c g.
Proof. intros Heq H w Hw. rewrite Heq. by apply H. Qed.

(** A guard around a sequence that starts with an assignment to the
    guarded form is the sequence of the guarded steps. *)
Lemma if_present_assign_seq form name html c w :
  if_present form (assign_options form name html ;;; c) w
  = (if_present form (assign_options form name html) ;;; if_present form c) w.
Proof.
  unfold if_present, bind. destruct (document w !! form) as [e|] eqn:E; [|by rewrite E].
  unfold assign_options. rewrite E.
  destruct (update_control _ _ _); [|done]. simpl. by rewrite lookup_insert_eq.
Qed.

Lemma fills_guarded_seq form name html c g :
  required form name ->
  fills (if_present form c) g ->
  fills (if_present form (assign_options form name html ;;; c))
        (fun d => g (alter (set_option name html) form d)).
Proof.
  intros Hreq Hc. eapply fills_ext; [apply if_present_assign_seq|].
  apply (fills_bind _ _ _ _ (fills_guarded form name html Hreq) Hc).
Qed.

Lemma filter_items_category c items :
  Forall (fun x => nullish x = false) items ->
  filter_items (has_category c) items = Ok (List.filter (category_is c) items).
Proof.
  induction 1 as [|x items Hx _ IH]; [done|]. simpl.
  unfold has_category at 1, category_is at 1.
  destruct (get_ok x "category" Hx) as [v ->]. cbn [rbind]. rewrite IH. cbn [rbind].
  by destruct (strict_eq_str v c).
Qed.

Lemma Forall_filter_nullish c items :
  Forall (fun x => nullish x = false) items ->
  Forall (fun x => nullish x = false) (List.filter (category_is c) items).
Proof.
  induction 1 as [|x items Hx _ IH]; simpl; [constructor|].
  destruct (category_is c x); [by constructor|done].
Qed.

Lemma options_ok (f : jsval -> result string) items :
  (forall x, nullish x = false -> exists s, f x = Ok s) ->
  Forall (fun x => nullish x = false) items ->
  exists rows, map_items f items = Ok rows.
Proof.
  intros Hf H. apply map_items_ok. eapply Forall_impl; [exact H|]. intros x Hx. by apply Hf.
Qed.

Ltac alter_lookups :=
  repeat first [ rewrite lookup_alter_eq | rewrite lookup_alter_ne by done ].

Lemma get_field_text x k v : get x k = Ok v -> to_string v = field_text x k.
Proof. intros H. unfold field_text. by rewrite H. Qed.

Lemma person_option_markup p :
  nullish p = false ->
  person_option p = Ok (option_markup (field_text p "id") (person_label p)).
Proof.
  intros Hp. unfold person_option, option_markup, person_label.
  destruct (get_ok p "id" Hp) as [i Hi]. destruct (get_ok p "full_name" Hp) as [n Hn].
  destruct (get_ok p "role" Hp) as [r Hr].
  rewrite Hi, Hn, Hr. cbn [rbind].
  rewrite (get_field_text _ _ _ Hi), (get_field_text _ _ _ Hn), (get_field_text _ _ _ Hr).
  by rewrite !append_assoc.
Qed.

Lemma duty_option_markup d :
  nullish d = false ->
  duty_option d = Ok (option_markup (field_text d "id") (duty_label d)).
Proof.
  intros Hd. unfold duty_option, option_markup, duty_label.
  destruct (get_ok d "id" Hd) as [i Hi]. destruct (get_ok d "code" Hd) as [c Hc].
  destruct (get_ok d "name" Hd) as [n Hn].
  rewrite Hi, Hc, Hn. cbn [rbind].
  rewrite (get_field_text _ _ _ Hi), (get_field_text _ _ _ Hc), (get_field_text _ _ _ Hn).
  by rewrite !append_assoc.
Qed.

Lemma equipment_option_markup e :
  nullish e = false ->
  equipment_option e = Ok (option_markup (field_text e "id") (equipment_label e)).
Proof.
  intros He. unfold equipment_option, option_markup, equipment_label.
  destruct (get_ok e "id" He) as [i Hi]. destruct (get_ok e "name" He) as [n Hn].
  rewrite Hi, Hn. cbn [rbind].
  by rewrite (get_field_text _ _ _ Hi), (get_field_text _ _ _ Hn).
Qed.

Lemma map_items_markup (f : jsval -> result string) (g : jsval -> string) items :
  (forall x, nullish x = false -> f x = Ok (g x)) ->
  Forall (fun x => nullish x = false) items ->
  map_items f items = Ok (List.map g items).
Proof.
  intros Hf. induction 1 as [|x items Hx _ IH]; [done|].
  simpl. rewrite (Hf x Hx). cbn [rbind]. by rewrite IH.
Qed.

Lemma choice_list_join (f : jsval -> result string) label items rows :
  (forall x, nullish x = false -> f x = Ok (option_markup (field_text x "id") (label x))) ->
  Forall (fun x => nullish x = false) items ->
  map_items f items = Ok rows ->
  blank_option +:+ join rows = choice_list label items.
Proof.
  intros Hf Hitems Hrows. rewrite (map_items_markup f _ items Hf Hitems) in Hrows.
  injection Hrows as <-. reflexivity.
Qed.

Lemma selects_filled_insert d d' k e people duties gear :
  k ∉ select_forms ->
  selects_filled d d' people duties gear ->
  selects_filled d (<[k := e]> d') people duties gear.
Proof.
  intros Hk (H1 & H2 & H3). unfold select_forms in Hk. rewrite !not_elem_of_cons in Hk.
  destruct Hk as (K1 & K2 & K3 & _).
  repeat split; intros f Hf; rewrite lookup_insert_ne by done; eauto.
Qed.

Section Populate.
Variables (w : World) (people duties gear : list jsval).
Hypothesis cached_people : personnel (state w) = VArr people.
Hypothesis cached_duties : dutyTypes (state w) = VArr duties.
Hypothesis cached_gear : equipment (state w) = VArr gear.
Hypothesis no_null_people : Forall (fun x => nullish x = false) people.
Hypothesis no_null_duties : Forall (fun x => nullish x = false) duties.
Hypothesis no_null_gear : Forall (fun x => nullish x = false) gear.
Hypothesis ready : selects_ready (document w).

(** [populateSelects] in terms of the options its own templates give. *)
Lemma populateSelects_fills :
  exists persons types uavs vehicles batteries d',
    map_items person_option people = Ok persons
    /\ map_items duty_option duties = Ok types
    /\ map_items equipment_option (List.filter (category_is "uav") gear) = Ok uavs
    /\ map_items equipment_option (List.filter (category_is "vehicle") gear) = Ok vehicles
    /\ map_items equipment_option (List.filter (category_is "battery") gear) = Ok batteries
    /\ populateSelects w = (Ok tt, set_document d' w)
    /\ (forall k, k ∉ select_forms -> d' !! k = document w !! k)
    /\ (forall f, document w !! "schedule-form" = Some f ->
          exists f', d' !! "schedule-form" = Some f'
            /\ control_options "person_id" f' = Some (blank_option +:+ join persons)
            /\ control_options "duty_type_id" f' = Some (blank_option +:+ join types))
    /\ (forall f, document w !! "plan-form" = Some f ->
          exists f', d' !! "plan-form" = Some f'
            /\ control_options "pilot_id" f' = Some (blank_option +:+ join persons)
            /\ control_options "navigator_id" f' = Some (blank_option +:+ join persons)
            /\ control_options "uav_id" f' = Some (blank_option +:+ join uavs)
            /\ control_options "vehicle_id" f' = Some (blank_option +:+ join vehicles)
            /\ control_options "battery_id" f' = Some (blank_option +:+ join batteries))
    /\ (forall f, document w !! "vacation-form" = Some f ->
          exists f', d' !! "vacation-form" = Some f'
            /\ control_options "person_id" f' = Some (blank_option +:+ join persons)).
Proof using All.
  destruct (options_ok person_option people person_option_ok no_null_people)
    as [persons Hpersons].
  destruct (options_ok duty_option duties duty_option_ok no_null_duties) as [types Htypes].
  destruct (options_ok equipment_option _ equipment_option_ok
              (Forall_filter_nullish "uav" gear no_null_gear)) as [uavs Huavs].
  destruct (options_ok equipment_option _ equipment_option_ok
              (Forall_filter_nullish "vehicle" gear no_null_gear)) as [vehicles Hvehicles].
  destruct (options_ok equipment_option _ equipment_option_ok
              (Forall_filter_nullish "battery" gear no_null_gear)) as [batteries Hbatteries].
  destruct required_selects as (R1 & R2 & R3 & R4 & R5 & R6 & R7 & R8).
  assert (forall c rows,
            map_items equipment_option (List.filter (category_is c) gear) = Ok rows ->
            equipment_options c (equipment (state w)) = Ok (join rows)) as Hgear.
  { intros c rows Hrows. unfold equipment_options. rewrite cached_gear. simpl.
    rewrite filter_items_category by done. cbn [rbind]. by rewrite Hrows. }
  assert (forall recv f items rows v,
            v = VArr items -> map_items f items = Ok rows ->
            map_join recv v f = Ok (join rows)) as Hjoin.
  { intros recv f items rows v -> Hrows. unfold map_join. simpl. by rewrite Hrows. }
  exists persons, types, uavs, vehicles, batteries.
  unfold populateSelects. erewrite bind_ok by apply gets_run.
  match goal with
  | |- exists d', _ /\ _ /\ _ /\ _ /\ _ /\ ?c w = _ /\ _ =>
      assert (exists g, fills c g
                /\ forall d, g d
                  = alter (set_option "battery_id" (blank_option +:+ join batteries)) "plan-form"
                     (alter (set_option "vehicle_id" (blank_option +:+ join vehicles)) "plan-form"
                     (alter (set_option "uav_id" (blank_option +:+ join uavs)) "plan-form"
                     (alter (set_option "duty_type_id" (blank_option +:+ join types)) "schedule-form"
                     (alter (set_option "person_id" (blank_option +:+ join persons)) "vacation-form"
                     (alter (set_option "navigator_id" (blank_option +:+ join persons)) "plan-form"
                     (alter (set_option "pilot_id" (blank_option +:+ join persons)) "plan-form"
                     (alter (set_option "person_id" (blank_option +:+ join persons)) "schedule-form"
                        d))))))))
        as (g & Hfills & Hg)
  end.
  { eexists. split.
    - eapply fills_lift; [by eapply Hjoin|].
      eapply fills_bind; [by apply fills_guarded|].
      eapply fills_bind; [apply fills_guarded_seq; [done|by apply fills_guarded]|].
      eapply fills_bind; [by apply fills_guarded|].
      eapply fills_lift; [by eapply Hjoin|].
      eapply fills_bind; [by apply fills_guarded|].
      eapply fills_lift; [by apply Hgear|].
      eapply fills_lift; [by apply Hgear|].
      eapply fills_lift; [by apply Hgear|].
      apply fills_guarded_seq; [done|].
      apply fills_guarded_seq; [done|]. by apply fills_guarded.
    - intros d. reflexivity. }
  destruct (Hfills w ready) as [Hrun _].
  exists (g (document w)). rewrite Hg. clear g Hfills Hg Hrun0 || idtac.
  destruct ready as (S1 & S2 & S3).
  repeat split; try done.
  - rewrite Hrun. by rewrite Hg.
  - intros k Hk. unfold select_forms in Hk. rewrite !not_elem_of_cons in Hk.
    destruct Hk as (K1 & K2 & K3 & _). by rewrite !lookup_alter_ne.
  - intros f Hf. specialize (S1 f Hf). rewrite !Forall_cons in S1.
    destruct S1 as (C1 & C2 & _). alter_lookups. rewrite Hf.
    eexists. split; [reflexivity|].
    rewrite !control_options_set_option by (by rewrite ?has_control_set_option).
    done.
  - intros f Hf. specialize (S2 f Hf). rewrite !Forall_cons in S2.
    destruct S2 as (C1 & C2 & C3 & C4 & C5 & _). alter_lookups. rewrite Hf.
    eexists. split; [reflexivity|].
    rewrite !control_options_set_option by (by rewrite ?has_control_set_option).
    done.
  - intros f Hf. specialize (S3 f Hf). rewrite !Forall_cons in S3.
    destruct S3 as (C1 & _). alter_lookups. rewrite Hf.
    eexists. split; [reflexivity|].
    rewrite !control_options_set_option by (by rewrite ?has_control_set_option).
    done.
Qed.
End Populate.


(** ** The personnel form after a creation *)

Section Created.
Variables (w : World) (form table : element) (r : response).
Variables (created : jsval) (items : list jsval).
Hypothesis has_form : document w !! "personnel-form" = Some form.
Hypothesis has_table : document w !! "personnel-table" = Some table.
Hypothesis answered :
  network w (requests w)
    (build_request (token (state w)) "/api/personnel" (post form)) = Responded r.
Hypothesis is_ok : ok r = true.
Hypothesis is_json :
  includes (default EmptyString (contentType r)) "application/json" = true.
Hypothesis parsed : json r = Ok created.
Hypothesis cache : personnel (state w) = VArr items.
Hypothesis no_null : Forall (fun x => nullish x = false) (items ++ [created]).
Hypothesis duties : records (dutyTypes (state w)).
Hypothesis gear : records (equipment (state w)).
Hypothesis ready : selects_ready (document w).

End Created.


(** ** Visibility toggles *)

Lemma same_but_hidden_refl e : same_but_hidden e e.
Proof. by repeat split. Qed.

Lemma same_but_hidden_add e : same_but_hidden e (classList_add "hidden" e).
Proof.
  repeat split; try (unfold classList_add; by destruct (contains "hidden" e)).
  intros c Hc. by apply contains_add_ne.
Qed.

Lemma same_but_hidden_remove e : same_but_hidden e (classList_remove "hidden" e).
Proof. repeat split. intros c Hc. by apply contains_remove_ne. Qed.

Lemma same_but_hidden_trans e1 e2 e3 :
  same_but_hidden e1 e2 -> same_but_hidden e2 e3 -> same_but_hidden e1 e3.
Proof.
  intros (A1 & A2 & A3 & A4 & A5) (B1 & B2 & B3 & B4 & B5).
  repeat split; try congruence. intros c Hc. by rewrite B5, A5.
Qed.

Lemma same_but_hidden_hide_panel e : same_but_hidden e (hide_panel e).
Proof.
  unfold hide_panel. destruct (is_panel e);
    [apply same_but_hidden_add|apply same_but_hidden_refl].
Qed.

Lemma classList_add_twice c e : classList_add c (classList_add c e) = classList_add c e.
Proof. unfold classList_add at 1. by rewrite contains_add. Qed.

Lemma filter_ne_twice (c : string) (l : list string) :
  filter (fun x => x <> c) (filter (fun x => x <> c) l) = filter (fun x => x <> c) l.
Proof.
  induction l as [|x l IH]; [done|]. rewrite filter_cons.
  destruct (decide (x <> c)) as [H|H]; [|done].
  rewrite filter_cons. destruct (decide (x <> c)); [by rewrite IH|done].
Qed.

Lemma classList_remove_twice c e :
  classList_remove c (classList_remove c e) = classList_remove c e.
Proof. unfold classList_remove, set_classList. simpl. by rewrite filter_ne_twice. Qed.

Lemma classList_remove_add c e :
  classList_remove c (classList_add c (classList_remove c e)) = classList_remove c e.
Proof.
  unfold classList_add. rewrite contains_remove.
  unfold classList_remove, set_classList. simpl.
  rewrite filter_app, filter_ne_twice, filter_cons.
  destruct (decide (c <> c)); [done|]. by rewrite filter_nil, app_nil_r.
Qed.

Lemma hide_panel_twice e : hide_panel (hide_panel e) = hide_panel e.
Proof.
  unfold hide_panel at 1. rewrite hide_panel_is_panel. unfold hide_panel.
  destruct (is_panel e); [apply classList_add_twice|done].
Qed.

Lemma is_panel_remove_hidden e : is_panel (classList_remove "hidden" e) = is_panel e.
Proof. unfold is_panel. by rewrite contains_remove_ne. Qed.

Lemma show_twice e :
  classList_remove "hidden" (hide_panel (classList_remove "hidden" (hide_panel e)))
  = classList_remove "hidden" (hide_panel e).
Proof.
  unfold hide_panel at 1. rewrite is_panel_remove_hidden, hide_panel_is_panel.
  destruct (is_panel e) eqn:E.
  - apply classList_remove_add.
  - apply classList_remove_twice.
Qed.

(** X22: [showView] never throws and changes nothing of the page but the
    class [hidden]: every element stays in place with its markup, text,
    value and controls and its other classes.  Showing the same view a
    second time changes nothing more. *)
Theorem showView_only_toggles_hidden (name : string) (w : World) :
  let w' := snd (showView name w) in
  fst (showView name w) = Ok tt
  /\ (forall id,
        match document w !! id with
        | Some e => exists e', document w' !! id = Some e' /\ same_but_hidden e e'
        | None => document w' !! id = None
        end)
  /\ snd (showView name w') = w'.
Proof.
  cbv zeta. rewrite !showView_run. simpl. split; [done|]. split.
  - intros id. destruct (decide ("view-" +:+ name = id)) as [Heq|Hne].
    + rewrite <- Heq, lookup_alter_eq, lookup_fmap.
      destruct (document w !! _) as [e|]; [|done]. simpl. eexists. split; [done|].
      eapply same_but_hidden_trans;
        [apply same_but_hidden_hide_panel|apply same_but_hidden_remove].
    + rewrite lookup_alter_ne, lookup_fmap by done.
      destruct (document w !! id) as [e|]; [|done]. simpl. eexists. split; [done|].
      apply same_but_hidden_hide_panel.
  - unfold set_document. simpl. f_equal. apply map_eq. intros id.
    destruct (decide ("view-" +:+ name = id)) as [Heq|Hne].
    + rewrite <- Heq, !lookup_alter_eq, !lookup_fmap, lookup_alter_eq, lookup_fmap.
      destruct (document w !! _) as [e|]; [|done]. simpl. by rewrite show_twice.
    + rewrite !lookup_alter_ne, !lookup_fmap, lookup_alter_ne, lookup_fmap by done.
      destruct (document w !! id) as [e|]; [|done]. simpl. by rewrite hide_panel_twice.
Qed.

Lemma classList_toggle_twice c force e :
  classList_toggle c force (classList_toggle c force e) = classList_toggle c force e.
Proof.
  destruct force; simpl; [apply classList_add_twice|apply classList_remove_twice].
Qed.

Lemma toggleFormsByRole_run w :
  toggleFormsByRole w
  = (Ok tt,
     set_document
       (alter (classList_toggle "hidden" (negb (privileged (role (state w))))) "vacation-form"
          (alter (classList_toggle "hidden" (negb (privileged (role (state w))))) "plan-form"
             (alter (classList_toggle "hidden" (negb (privileged (role (state w)))))
                "schedule-form"
                (alter (classList_toggle "hidden" (negb (privileged (role (state w)))))
                   "personnel-form" (document w))))) w).
Proof.
  unfold toggleFormsByRole. erewrite bind_ok by apply gets_run. cbv beta zeta.
  do 3 (erewrite bind_ok by apply toggle_form_run). by rewrite toggle_form_run.
Qed.

(** X23: [toggleFormsByRole] never throws, leaves every element other than
    the four creation forms untouched, changes nothing of a form but its
    class [hidden], and applied a second time changes nothing more. *)
Theorem toggleFormsByRole_only_toggles_forms (w : World) :
  let w' := snd (toggleFormsByRole w) in
  fst (toggleFormsByRole w) = Ok tt
  /\ (forall id, id ∉ creation_forms -> document w' !! id = document w !! id)
  /\ (forall id e, document w !! id = Some e ->
        exists e', document w' !! id = Some e' /\ same_but_hidden e e')
  /\ snd (toggleFormsByRole w') = w'.
Proof.
  cbv zeta. rewrite !toggleFormsByRole_run. simpl. split; [done|]. split; [|split].
  - intros id Hid. unfold creation_forms in Hid. rewrite !not_elem_of_cons in Hid.
    destruct Hid as (H1 & H2 & H3 & H4 & _). by rewrite !lookup_alter_ne.
  - intros id e He.
    assert (forall force, same_but_hidden e (classList_toggle "hidden" force e)) as Htoggle.
    { intros []; [apply same_but_hidden_add|apply same_but_hidden_remove]. }
    repeat match goal with
           | |- context [alter ?f ?k ?m !! id] =>
               destruct (decide (k = id)) as [<-|?];
                 [rewrite lookup_alter_eq; alter_lookups; rewrite He; simpl;
                  eexists; split; [done|apply Htoggle]
                 |rewrite (lookup_alter_ne f m k id) by done]
           end.
    rewrite He. eexists. split; [done|apply same_but_hidden_refl].
  - unfold set_document. simpl. f_equal. apply map_eq. intros id.
    repeat match goal with
           | |- context [alter ?f ?k ?m !! id] =>
               destruct (decide (k = id)) as [<-|?];
                 [alter_lookups; destruct (document w !! _); simpl; [|done];
                  by rewrite classList_toggle_twice
                 |rewrite (lookup_alter_ne f m k id) by done]
           end.
    done.
Qed.

(** ** Base data: a successful load *)

Lemma settle_ok {A} (c : M A) w r w' : c w = (r, w') -> settle c w = (Ok r, w').
Proof. intros H. unfold settle. by rewrite H. Qed.

Section BaseData.
Variables (w : World) (table : element) (people duties gear : list jsval).
Hypothesis answers :
  Forall2 answers_json (base_answers w) [VArr people; VArr duties; VArr gear].
Hypothesis no_null_people : Forall (fun x => nullish x = false) people.
Hypothesis no_null_duties : Forall (fun x => nullish x = false) duties.
Hypothesis no_null_gear : Forall (fun x => nullish x = false) gear.
Hypothesis ready : selects_ready (document w).
Hypothesis has_table : document w !! "personnel-table" = Some table.

End BaseData.


(** ** Navigation: at most one read *)

Lemma keeps_at_most_one_read {A} (c : M A) : keeps requests c -> at_most_one_read c.
Proof.
  intros H w. exists []. rewrite H, app_nil_r. split; [done|]. split; [simpl; lia|constructor].
Qed.

Lemma apiFetch_at_most_one_read p : at_most_one_read (apiFetch p no_options).
Proof.
  intros w. eexists. split; [apply apiFetch_requests|]. split; [simpl; lia|].
  by repeat constructor.
Qed.

Lemma read_then {A B} (c : M A) (k : A -> M B) :
  at_most_one_read c -> (forall a, keeps requests (k a)) -> at_most_one_read (bind c k).
Proof.
  intros Hc Hk w. destruct (Hc w) as (reqs & H & Hlen & Hget). exists reqs.
  by rewrite bind_requests.
Qed.

Lemma then_read {A B} (c : M A) (k : A -> M B) :
  keeps requests c -> (forall a, at_most_one_read (k a)) -> at_most_one_read (bind c k).
Proof.
  intros Hc Hk w. unfold bind. specialize (Hc w).
  destruct (c w) as [[a|e] w']; simpl in *.
  - destruct (Hk a w') as (reqs & H & Hrest). exists reqs. by rewrite H, Hc.
  - exists []. rewrite Hc, app_nil_r. split; [done|]. split; [simpl; lia|constructor].
Qed.

Lemma loaders_at_most_one_read :
  at_most_one_read loadDashboard /\ at_most_one_read loadSchedule
  /\ at_most_one_read loadPlan /\ at_most_one_read loadVacations
  /\ at_most_one_read loadAnalytics.
Proof.
  repeat split.
  - apply read_then; [apply apiFetch_at_most_one_read|intros; keeps_tac].
  - apply then_read; [keeps_tac|intros m].
    apply read_then; [apply apiFetch_at_most_one_read|intros; keeps_tac].
  - apply then_read; [keeps_tac|intros m].
    apply read_then; [apply apiFetch_at_most_one_read|intros; keeps_tac].
  - apply read_then; [apply apiFetch_at_most_one_read|intros; keeps_tac].
  - apply then_read; [keeps_tac|intros s]. apply then_read; [keeps_tac|intros e].
    apply read_then; [apply apiFetch_at_most_one_read|intros; keeps_tac].
Qed.

(** X17: whatever view a navigation button names and whatever the page and
    the server are, its click makes at most one request, a GET without
    a body; for a name that is none of the six views it makes none. *)
Theorem nav_click_at_most_one_read (view : string) (w : World) :
  exists reqs,
    requests (snd (nav_click view w)) = requests w ++ reqs
    /\ length reqs <= 1
    /\ Forall (fun q => method q = "GET" /\ body q = None) reqs
    /\ (view ∉ loading_views -> reqs = []).
Proof.
  destruct loaders_at_most_one_read as (Hd & Hs & Hp & Hv & Ha).
  assert (keeps requests (showView view)) as Hshow by keeps_tac.
  destruct (decide (view ∈ loading_views)) as [Hin|Hout].
  - assert (at_most_one_read (nav_click view)) as Hnav.
    { unfold loading_views in Hin. rewrite !elem_of_cons, elem_of_nil in Hin.
      unfold nav_click. apply then_read; [done|intros _].
      destruct Hin as [->|[->|[->|[->|[->|[->|[]]]]]]]; simpl;
        repeat first
          [ assumption
          | apply keeps_at_most_one_read; solve [keeps_tac]
          | apply read_then; [assumption|intros; solve [keeps_tac]]
          | apply then_read; [solve [keeps_tac]|intros _] ]. }
    destruct (Hnav w) as (reqs & H1 & H2 & H3). exists reqs.
    repeat split; try done.
  - exists []. rewrite app_nil_r. split; [|split; [simpl; lia|split; [constructor|done]]].
    unfold loading_views in Hout. rewrite !not_elem_of_cons in Hout.
    destruct Hout as (H1 & H2 & H3 & H4 & H5 & H6 & _).
    apply String.eqb_neq in H1, H2, H3, H4, H5, H6.
    unfold nav_click. rewrite H1, H2, H3, H4, H5, H6.
    assert (keeps requests (showView view ;;; when false loadDashboard ;;;
                            when false (cache <- gets (fun w => personnel (state w)) ;;
                                        renderPersonnel cache) ;;;
                            when false loadSchedule ;;; when false loadPlan ;;;
                            when false loadVacations ;;; when false loadAnalytics)) as Hk.
    { unfold when. keeps_tac. }
    apply Hk.
Qed.

(** ** Start-up with a session the server rejects *)

(** X7: with a token held, when any of the three base reads fails [init]
    makes those three requests and no other, drops the token from memory
    and from localStorage, and shows the login section with an empty
    badge; the role and the user name stay where they were, in memory
    and in localStorage. *)
Theorem init_failed_base_read_drops_token (w : World) (a b u : element) :
  truthy (token (state w)) = true ->
  document w !! "auth-section" = Some a ->
  document w !! "app" = Some b ->
  document w !! "user-info" = Some u ->
  Exists failed (base_answers w) ->
  fst (init w) = Ok tt
  /\ requests (snd (init w)) = requests w ++ base_requests (token (state w))
  /\ session (snd (init w))
     = (VNull, role (state w), username (state w),
        None, localStorage w !! "role", localStorage w !! "username")
  /\ session_view (snd (init w)) = (Some true, Some false, Some EmptyString).
Proof.
  intros Htok Ha Hb Hu Hfail.
  unfold init. erewrite bind_ok by apply gets_run. rewrite Htok.
  erewrite bind_ok by (apply (setAuthenticated_run w a b u); done).
  rewrite Htok.
  erewrite bind_ok by apply toggleFormsByRole_run.
  match goal with |- context [try_catch _ _ ?x] => set (w2 := x) end.
  destruct (loadBaseData_failure w2 Hfail) as ([e He] & Hs & Hd & Hl).
  pose proof (loadBaseData_requests w2) as Hr.
  unfold try_catch.
  destruct (loadBaseData w2) as [r w3] eqn:Hload. simpl in He, Hs, Hd, Hl, Hr. subst r.
  erewrite bind_throw by exact Hload.
  do 2 (erewrite bind_ok by reflexivity).
  match goal with |- context [setAuthenticated ?x] => set (w4 := x) end.
  assert (document w4 !! "auth-section" = Some (classList_add "hidden" a)
          /\ document w4 !! "app" = Some (classList_remove "hidden" b)
          /\ exists u', document w4 !! "user-info" = Some u') as (Ha4 & Hb4 & u' & Hu4).
  { subst w4. simpl. rewrite Hd. subst w2. simpl. alter_lookups.
    rewrite lookup_insert_eq.
    rewrite (lookup_insert_ne _ "user-info" "app"), lookup_insert_eq by done.
    rewrite (lookup_insert_ne _ "user-info" "auth-section") by done.
    rewrite (lookup_insert_ne _ "app" "auth-section"), lookup_insert_eq by done.
    eauto. }
  pose proof (setAuthenticated_view w4 _ _ _ Ha4 Hb4 Hu4) as Hview.
  assert (keeps session setAuthenticated) as Hsess by keeps_tac.
  assert (keeps requests setAuthenticated) as Hreq by keeps_tac.
  rewrite (setAuthenticated_run w4 _ _ _ Ha4 Hb4 Hu4) in *.
  specialize (Hsess w4). specialize (Hreq w4).
  rewrite (setAuthenticated_run w4 _ _ _ Ha4 Hb4 Hu4) in Hsess, Hreq.
  split; [done|]. split; [by rewrite Hreq|]. split; [|exact Hview].
  rewrite Hsess. unfold session. subst w4. simpl. rewrite Hs, Hl. subst w2. simpl.
  by rewrite lookup_delete_eq, !lookup_delete_ne by done.
Qed.

Lemma init_failed_base_read_drops_token_witness :
  let w := demo_world unauthorized in
  fst (init w) = Ok tt
  /\ requests (snd (init w)) = requests w ++ base_requests (token (state w))
  /\ session (snd (init w))
     = (VNull, VStr "admin", VStr "olena", None, Some "admin", Some "olena")
  /\ session_view (snd (init w)) = (Some true, Some false, Some EmptyString).
Proof.
  apply (init_failed_base_read_drops_token (demo_world unauthorized)
           plain (set_classList ["hidden"] plain) plain);
    [reflexivity|reflexivity|reflexivity|reflexivity|].
  apply Exists_cons_hd. reflexivity.
Defined.

(** ** Renderers: names as they are stored *)

Lemma personnel_row_name p name row :
  get p "full_name" = Ok (VStr name) ->
  personnel_row p = Ok row ->
  includes row ("<td>" +:+ name +:+ "</td>") = true.
Proof.
  intros Hname Hrow. unfold personnel_row in Hrow. rewrite Hname in Hrow.
  cbn [rbind] in Hrow.
  destruct (get p "role"); [|done]. cbn [rbind] in Hrow.
  destruct (get p "callsign"); [|done]. cbn [rbind] in Hrow.
  destruct (get p "unit"); [|done]. cbn [rbind] in Hrow.
  injection Hrow as <-. cbn [to_string].
  repeat first [ exact (includes_cell _ _) | rewrite append_cons; apply includes_cons ].
Qed.

Section Names.
Variables (w : World) (table : element) (people : list jsval) (p : jsval) (name : string).
Hypothesis has_table : document w !! "personnel-table" = Some table.
Hypothesis no_null : Forall (fun x => nullish x = false) people.
Hypothesis listed : p ∈ people.
Hypothesis named : get p "full_name" = Ok (VStr name).

End Names.

